(** * LegalAI chat application: session and message store, request handlers,
      and the LawBhoomi scraper tool

    A shallow embedding of [src/LegalAI/app.py].

    - Python [str] values are Rocq [string]s; one [ascii] stands for one
      code point in the range 0..255, so [length] is Python's [len] and
      slicing is by character.
    - The SQLite file is a record holding the two tables as lists of rows in
      rowid order, the AUTOINCREMENT counter of [chat_messages], and the
      value of CURRENT_TIMESTAMP (whole seconds, as SQLite stores it).
    - Message ids and timestamps are natural numbers and the AUTOINCREMENT
      counter is not bounded; a request may still name an id above
      2^63 - 1, which SQLite cannot bind.
    - The hosted agent is an oracle: given the history handed to
      [create_legal_agent] and the user's text it answers or raises, after
      some number of seconds.
    - Requests are handled one at a time.  The wall clock never runs
      backwards; it advances between requests and while the agent works,
      and the statements of one handler otherwise read the same second. *)

From Stdlib Require Import String Ascii List Arith NArith Bool Lia.
From Stdlib Require Import DecimalString.
From Stdlib Require Import Sorting.Sorted Sorting.Permutation.
Import ListNotations.

Local Open Scope string_scope.
Local Open Scope nat_scope.
Local Open Scope list_scope.

(* ================================================================== *)
(** ** Python string primitives used by the application *)

Module Py.

(** [str.isspace] on one character, for code points below 256:
    TAB..CR, FS..US, SPACE, NEL and NBSP. *)
Definition isspace (c : ascii) : bool :=
  let n := nat_of_ascii c in
  ((9 <=? n) && (n <=? 13)) || ((28 <=? n) && (n <=? 32))
  || (n =? 133) || (n =? 160).

Definition is_empty (s : string) : bool :=
  match s with EmptyString => true | String _ _ => false end.

Fixpoint lstrip (s : string) : string :=
  match s with
  | EmptyString => EmptyString
  | String c r => if isspace c then lstrip r else s
  end.

Fixpoint rstrip (s : string) : string :=
  match s with
  | EmptyString => EmptyString
  | String c r =>
      let r' := rstrip r in
      if is_empty r' && isspace c then EmptyString else String c r'
  end.

(** [s.strip()] *)
Definition strip (s : string) : string := rstrip (lstrip s).

(** every character of [s] is whitespace (true of the empty string) *)
Fixpoint all_space (s : string) : bool :=
  match s with
  | EmptyString => true
  | String c r => isspace c && all_space r
  end.

(** [s[:n]] *)
Fixpoint slice_to (n : nat) (s : string) : string :=
  match n, s with
  | S k, String c r => String c (slice_to k r)
  | _, _ => EmptyString
  end.

(** [s.split()]: the maximal runs of non-whitespace characters.
    [word] is the run being read. *)
Fixpoint split_from (word : string) (s : string) : list string :=
  match s with
  | EmptyString => if is_empty word then [] else [word]
  | String c r =>
      if isspace c
      then (if is_empty word then split_from EmptyString r
            else word :: split_from EmptyString r)
      else split_from (word ++ String c EmptyString)%string r
  end.

Definition split (s : string) : list string := split_from EmptyString s.

(** [sep.join(parts)] *)
Fixpoint join (sep : string) (parts : list string) : string :=
  match parts with
  | [] => EmptyString
  | [p] => p
  | p :: rest => (p ++ sep ++ join sep rest)%string
  end.

(** [s.startswith(p)] *)
Definition startswith (p s : string) : bool := String.prefix p s.

(** [str(n)] for a non-negative integer *)
Definition str_of_nat (n : nat) : string :=
  NilEmpty.string_of_uint (Nat.to_uint n).

End Py.

(* ================================================================== *)
(** ** The persistence store *)

(** A row of [chat_sessions]. *)
Record session_row := mk_session {
  s_id : string;
  s_title : string;
  s_created_at : nat;
  s_updated_at : nat
}.

(** A row of [chat_messages]. [m_role] is TEXT in the schema. *)
Record message_row := mk_message {
  m_id : nat;
  m_session_id : string;
  m_role : string;
  m_content : string;
  m_timestamp : nat
}.

(** The dictionary that [get_chat_history] builds for one row. *)
Record history_row := mk_history {
  h_id : nat;
  h_role : string;
  h_content : string;
  h_timestamp : nat
}.

(** The database file together with the clock it reads.
    [sqlite_sequence] is the largest id ever given to a message
    (AUTOINCREMENT); [clock] is CURRENT_TIMESTAMP. *)
Record state := mk_state {
  chat_sessions : list session_row;
  chat_messages : list message_row;
  sqlite_sequence : nat;
  clock : nat
}.

(** [init_db] on a fresh file. *)
Definition init_db : state := mk_state [] [] 0 0.

Definition with_sessions (st : state) (ss : list session_row) : state :=
  mk_state ss (chat_messages st) (sqlite_sequence st) (clock st).

(** Seconds pass. *)
Definition elapse (d : nat) (st : state) : state :=
  mk_state (chat_sessions st) (chat_messages st) (sqlite_sequence st)
           (clock st + d).

(** [WHERE session_id = ?] *)
Definition of_session (sid : string) (m : message_row) : bool :=
  String.eqb (m_session_id m) sid.

(** [WHERE id = ?] on [chat_sessions] *)
Definition is_session (sid : string) (s : session_row) : bool :=
  String.eqb (s_id s) sid.

(** [ORDER BY timestamp ASC]: SQLite's sorter keeps rows with equal keys
    in the order the scan produced them, so the sort is a stable one. *)
Fixpoint insert_by_timestamp (m : message_row) (l : list message_row)
  : list message_row :=
  match l with
  | [] => [m]
  | x :: r =>
      if m_timestamp m <=? m_timestamp x then m :: x :: r
      else x :: insert_by_timestamp m r
  end.

Fixpoint order_by_timestamp (l : list message_row) : list message_row :=
  match l with
  | [] => []
  | m :: r => insert_by_timestamp m (order_by_timestamp r)
  end.

(** [ORDER BY updated_at DESC], stable likewise. *)
Fixpoint insert_by_updated_desc (s : session_row) (l : list session_row)
  : list session_row :=
  match l with
  | [] => [s]
  | x :: r =>
      if s_updated_at x <=? s_updated_at s then s :: x :: r
      else x :: insert_by_updated_desc s r
  end.

Fixpoint order_by_updated_desc (l : list session_row) : list session_row :=
  match l with
  | [] => []
  | s :: r => insert_by_updated_desc s (order_by_updated_desc r)
  end.

Definition history_of (m : message_row) : history_row :=
  mk_history (m_id m) (m_role m) (m_content m) (m_timestamp m).

(** [get_chat_sessions] *)
Definition get_chat_sessions (st : state) : list session_row :=
  order_by_updated_desc (chat_sessions st).

(** [get_chat_history] *)
Definition get_chat_history (st : state) (sid : string) : list history_row :=
  map history_of
      (order_by_timestamp (filter (of_session sid) (chat_messages st))).

(** [UPDATE chat_sessions SET updated_at = CURRENT_TIMESTAMP WHERE id = ?] *)
Definition touch_session (sid : string) (now : nat) (s : session_row)
  : session_row :=
  if is_session sid s
  then mk_session (s_id s) (s_title s) (s_created_at s) now
  else s.

(** [save_message]: the INSERT takes the next AUTOINCREMENT id and the
    current timestamp; the UPDATE touches the parent session, if any. *)
Definition save_message (st : state) (sid role content : string) : state :=
  let new_id := S (sqlite_sequence st) in
  mk_state
    (map (touch_session sid (clock st)) (chat_sessions st))
    (chat_messages st ++ [mk_message new_id sid role content (clock st)])
    new_id
    (clock st).

(** [title[:50] + "..." if len(title) > 50 else title] *)
Definition display_title (title : string) : string :=
  if 50 <? String.length title
  then (Py.slice_to 50 title ++ "...")%string
  else title.

Definition retitle_session (sid title : string) (now : nat) (s : session_row)
  : session_row :=
  if is_session sid s
  then mk_session (s_id s) title (s_created_at s) now
  else s.

(** [update_session_title] *)
Definition update_session_title (st : state) (sid title : string) : state :=
  with_sessions st
    (map (retitle_session sid (display_title title) (clock st))
         (chat_sessions st)).

(** [create_new_session]; [uuid] is the value drawn by [uuid.uuid4()].
    [None] when the PRIMARY KEY rejects the INSERT. *)
Definition create_new_session (st : state) (uuid : string) : option state :=
  if existsb (is_session uuid) (chat_sessions st) then None
  else Some (with_sessions st
               (chat_sessions st ++
                [mk_session uuid "New Legal Consultation"
                            (clock st) (clock st)])).

(** Look-ups used to state properties of the store. *)
Definition find_session (st : state) (sid : string) : option session_row :=
  find (is_session sid) (chat_sessions st).

Definition session_exists (st : state) (sid : string) : bool :=
  existsb (is_session sid) (chat_sessions st).

Definition session_title (st : state) (sid : string) : option string :=
  option_map s_title (find_session st sid).

(** The rows of one session, in table order. *)
Definition session_messages (st : state) (sid : string) : list message_row :=
  filter (of_session sid) (chat_messages st).

(** Every message row points at a session row (the schema's
    [FOREIGN KEY (session_id) REFERENCES chat_sessions (id)]). *)
Definition referential_integrity (st : state) : bool :=
  forallb (fun m => session_exists st (m_session_id m)) (chat_messages st).

(* ================================================================== *)
(** ** Routes *)

Inductive payload :=
| SessionCreated (session_id : string)
| Sessions (sessions : list session_row)
| History (history : list history_row)
| Reply (response : string)
| StatusSuccess.

(** What a route returns: a 200 JSON body, or an error body with its
    status code and, for the 500 of [send_message] / [edit_message], the
    text of the exception. *)
Inductive response :=
| Json200 (body : payload)
| JsonError (status : nat) (error : string) (details : option string).

Definition status_of (r : response) : nat :=
  match r with
  | Json200 _ => 200
  | JsonError status _ _ => status
  end.

(** Outcome of [create_legal_agent(h).run(text)] followed by
    [str(response.content)]. *)
Inductive agent_outcome :=
| AgentReply (content : string)
| AgentRaises (exc : string).

(** [data.get("message", "")]: the request body's message, the empty
    string when the key is missing. *)
Definition raw_message (body : option string) : string :=
  match body with Some s => s | None => EmptyString end.

(** [data.get("message", "").strip()] *)
Definition message_field (body : option string) : string :=
  Py.strip (raw_message body).

(** The first SELECT of [edit_message]: [fetchone()] of
    [WHERE id = ? AND session_id = ?]. *)
Definition is_message (sid : string) (mid : nat) (m : message_row) : bool :=
  (m_id m =? mid) && of_session sid m.

Definition fetch_message (st : state) (sid : string) (mid : nat)
  : option message_row :=
  find (is_message sid mid) (chat_messages st).

(** The largest INTEGER SQLite holds, 2^63 - 1. *)
Definition sqlite_max_integer : N := 9223372036854775807%N.

(** Binding [message_id] to the SELECT of line 322 raises OverflowError
    when the id is above [sqlite_max_integer].  The counter of the model is
    not bounded, so an id it has already handed out counts as one SQLite
    holds; in a database whose counter is within SQLite's range the test is
    the comparison with [sqlite_max_integer] alone. *)
Definition unbindable (st : state) (mid : nat) : bool :=
  (sqlite_sequence st <? mid) && (sqlite_max_integer <? N.of_nat mid)%N.

(** [str(e)] of that OverflowError. *)
Definition overflow_text : string :=
  "Python int too large to convert to SQLite INTEGER".

(** [not result or result[0] != 'user'] *)
Definition not_editable (st : state) (sid : string) (mid : nat) : bool :=
  match fetch_message st sid mid with
  | None => true
  | Some m => negb (String.eqb (m_role m) "user")
  end.

(** [UPDATE chat_messages SET content = ?, timestamp = CURRENT_TIMESTAMP
     WHERE id = ? AND session_id = ?] *)
Definition overwrite (sid : string) (mid : nat) (content : string) (now : nat)
                     (m : message_row) : message_row :=
  if is_message sid mid m
  then mk_message (m_id m) (m_session_id m) (m_role m) content now
  else m.

(** [DELETE FROM chat_messages WHERE session_id = ? AND id > ?] keeps the
    rows on which this is true. *)
Definition survives_truncation (sid : string) (mid : nat) (m : message_row)
  : bool :=
  negb (of_session sid m && (mid <? m_id m)).

(** The transaction of [edit_message] (lines 332-350): overwrite, truncate
    forward, touch the session. *)
Definition rewrite_and_truncate (st : state) (sid : string) (mid : nat)
                                (content : string) : state :=
  mk_state
    (map (touch_session sid (clock st)) (chat_sessions st))
    (filter (survives_truncation sid mid)
            (map (overwrite sid mid content (clock st)) (chat_messages st)))
    (sqlite_sequence st)
    (clock st).

Section Routes.

(** The agent: from the history given to [create_legal_agent] and the
    text given to [run], the seconds the turn takes and its outcome. *)
Variable agent_turn : list history_row -> string -> nat * agent_outcome.

(** POST /api/new_session *)
Definition new_session (st : state) (uuid : string) : response * state :=
  match create_new_session st uuid with
  | Some st' => (Json200 (SessionCreated uuid), st')
  | None => (JsonError 500 "Internal Server Error" None, st)
  end.

(** GET /api/sessions *)
Definition get_sessions_route (st : state) : response :=
  Json200 (Sessions (get_chat_sessions st)).

(** GET /api/chat/<session_id> *)
Definition get_chat (st : state) (sid : string) : response :=
  Json200 (History (get_chat_history st sid)).

(** POST /api/chat/<session_id>/message *)
Definition send_message (st : state) (sid : string) (body : option string)
  : response * state :=
  let user_message := message_field body in
  if Py.is_empty user_message
  then (JsonError 400 "Message cannot be empty" None, st)
  else
    let chat_history := get_chat_history st sid in
    let st1 := if length chat_history =? 0
               then update_session_title st sid user_message
               else st in
    let st2 := save_message st1 sid "user" user_message in
    match agent_turn chat_history user_message with
    | (d, AgentRaises e) =>
        (JsonError 500 "Internal server error" (Some e), elapse d st2)
    | (d, AgentReply ai_response) =>
        (Json200 (Reply ai_response),
         save_message (elapse d st2) sid "assistant" ai_response)
    end.

(** DELETE /api/delete_session/<session_id> *)
Definition delete_session (st : state) (sid : string) : response * state :=
  let ms := filter (fun m => negb (of_session sid m)) (chat_messages st) in
  let ss := filter (fun s => negb (is_session sid s)) (chat_sessions st) in
  (Json200 StatusSuccess,
   mk_state ss ms (sqlite_sequence st) (clock st)).

(** PUT /api/chat/<session_id>/edit/<int:message_id> *)
Definition edit_message (st : state) (sid : string) (mid : nat)
                        (body : option string) : response * state :=
  let new_message := message_field body in
  if Py.is_empty new_message
  then (JsonError 400 "Message cannot be empty" None, st)
  else if unbindable st mid
  then (JsonError 500 "Internal server error" (Some overflow_text), st)
  else if not_editable st sid mid
  then (JsonError 404 "Message not found or cannot edit assistant messages"
                  None, st)
  else
    let st1 := rewrite_and_truncate st sid mid new_message in
    let chat_history := get_chat_history st1 sid in
    match agent_turn chat_history new_message with
    | (d, AgentRaises e) =>
        (JsonError 500 "Internal server error" (Some e), elapse d st1)
    | (d, AgentReply ai_response) =>
        (Json200 (Reply ai_response),
         save_message (elapse d st1) sid "assistant" ai_response)
    end.

(** What happens to the store over time: a request is served, or time
    passes between two requests. *)
Inductive event :=
| NewSession (uuid : string)
| GetSessions
| GetChat (sid : string)
| SendMessage (sid : string) (body : option string)
| DeleteSession (sid : string)
| EditMessage (sid : string) (mid : nat) (body : option string)
| Elapse (seconds : nat).

Definition step (st : state) (e : event) : state :=
  match e with
  | NewSession uuid => snd (new_session st uuid)
  | GetSessions => st
  | GetChat _ => st
  | SendMessage sid body => snd (send_message st sid body)
  | DeleteSession sid => snd (delete_session st sid)
  | EditMessage sid mid body => snd (edit_message st sid mid body)
  | Elapse d => elapse d st
  end.

Definition run (st : state) (es : list event) : state :=
  fold_left step es st.

(** The stores the application can be in. *)
Definition reachable (st : state) : Prop :=
  exists es, st = run init_db es.

(** Every send-message request of the trace names a session that exists
    when the request arrives. *)
Fixpoint sends_to_sessions (st : state) (es : list event) : Prop :=
  match es with
  | [] => True
  | e :: rest =>
      match e with
      | SendMessage sid _ => session_exists st sid = true
      | _ => True
      end /\ sends_to_sessions (step st e) rest
  end.

End Routes.

(* ================================================================== *)
(** ** Invariant of the message table *)

(** [a] is stored before [b]: its id is smaller, and inside one session
    its timestamp is not later. *)
Definition row_before (a b : message_row) : Prop :=
  m_id a < m_id b /\
  (m_session_id a = m_session_id b -> m_timestamp a <= m_timestamp b).

(** No id is above the AUTOINCREMENT counter, no timestamp is in the
    future. *)
Definition row_bounded (st : state) (m : message_row) : Prop :=
  m_id m <= sqlite_sequence st /\ m_timestamp m <= clock st.

Definition well_formed (st : state) : Prop :=
  StronglySorted row_before (chat_messages st) /\
  Forall (row_bounded st) (chat_messages st).

(** Order of [getHistory] as the specification words it: by timestamp,
    ties by id. *)
Definition history_before (a b : history_row) : Prop :=
  h_timestamp a < h_timestamp b \/
  (h_timestamp a = h_timestamp b /\ h_id a < h_id b).

(* ================================================================== *)
(** ** The LawBhoomi scraper tool *)

Module Scraper.

(** A Python exception, by the [except] clause that catches it;
    [msg] is [str(e)].  Both classes derive from [Exception]. *)
Inductive exn :=
| RequestException (msg : string)
| OtherException (msg : string).

(** A Python computation returns or raises. *)
Inductive result (A : Type) :=
| Returned (a : A)
| Raised (e : exn).
Arguments Returned {A} a.
Arguments Raised {A} e.

Definition bind {A B} (r : result A) (k : A -> result B) : result B :=
  match r with
  | Returned a => k a
  | Raised e => Raised e
  end.

Notation "x <- r ;; k" := (bind r (fun x => k))
  (at level 61, r at next level, right associativity).

(** The page as the tool reads it once the [script] and [style] elements
    are extracted: the text of [div.content-area] and of [body], each as
    [get_text(separator=' ', strip=True)] gives it, when the element is
    there. *)
Record soup := mk_soup {
  content_area : option string;
  body : option string
}.

(** What [requests.get] hands back; [parsed] is
    [BeautifulSoup(response.content, 'html.parser')]. *)
Record http_response := mk_response {
  status_code : nat;
  reason : string;
  parsed : result soup
}.

Definition fixed_url : string := "https://lawbhoomi.com/law-notes/".

Definition nl : string := String "010"%char EmptyString.

(** [response.raise_for_status()]: HTTPError, a RequestException, for
    4xx and 5xx. *)
Definition raise_for_status (url : string) (r : http_response)
  : result unit :=
  if (400 <=? status_code r) && (status_code r <? 500)
  then Raised (RequestException
                 (Py.str_of_nat (status_code r) ++ " Client Error: "
                  ++ reason r ++ " for url: " ++ url)%string)
  else if (500 <=? status_code r) && (status_code r <? 600)
  then Raised (RequestException
                 (Py.str_of_nat (status_code r) ++ " Server Error: "
                  ++ reason r ++ " for url: " ++ url)%string)
  else Returned tt.

(** [main_content.get_text(...)] if the container is found, else
    [soup.body.get_text(...)], which raises when there is no body. *)
Definition text_content (s : soup) : result string :=
  match content_area s with
  | Some t => Returned t
  | None =>
      match body s with
      | Some t => Returned t
      | None => Raised (OtherException
                  "'NoneType' object has no attribute 'get_text'")
      end
  end.

Section Run.

(** [requests.get(url, headers=..., timeout=15)] *)
Variable requests_get : string -> result http_response.

(** The body of the [try]. *)
Definition attempt : result string :=
  let url := fixed_url in
  response <- requests_get url ;;
  _ <- raise_for_status url response ;;
  s <- parsed response ;;
  text <- text_content s ;;
  let clean_text := Py.join " " (Py.split text) in
  if String.length clean_text <? 50
  then Returned ("Successfully accessed URL " ++ url
                 ++ ", but extracted very little content. "
                 ++ "Extracted snippet: "
                 ++ Py.slice_to 50 clean_text ++ "...")%string
  else Returned ("--- START OF LAW BHOOMI NOTES CONTENT ---" ++ nl ++ nl
                 ++ clean_text ++ nl ++ nl
                 ++ "--- END OF LAW BHOOMI NOTES CONTENT ---")%string.

(** [LawbhoomiScraperTool.run]: the [try] with its two handlers. *)
Definition run : result string :=
  let url := fixed_url in
  match attempt with
  | Returned s => Returned s
  | Raised (RequestException e) =>
      Returned ("Error: Could not access LawBhoomi URL " ++ url
                ++ ". Details: " ++ e)%string
  | Raised (OtherException e) =>
      Returned ("Error: Failed to process content from URL " ++ url
                ++ ". Details: " ++ e)%string
  end.

(** The fetch failed: [requests.get] raised, or the status made
    [raise_for_status] raise. *)
Definition fetch_failed : bool :=
  match requests_get fixed_url with
  | Raised _ => true
  | Returned r =>
      match raise_for_status fixed_url r with
      | Raised _ => true
      | Returned _ => false
      end
  end.

End Run.

(** A status outside 200..299. *)
Definition non_2xx (r : http_response) : bool :=
  (status_code r <? 200) || (299 <? status_code r).

End Scraper.

(* ================================================================== *)
(** ** Concrete agents and stores used in examples *)

Module Demo.

(** Raises on the first turn of a conversation, answers afterwards. *)
Definition moody_agent (h : list history_row) (text : string)
  : nat * agent_outcome :=
  match h with
  | [] => (3, AgentRaises "provider unavailable")
  | _ => (2, AgentReply ("Noted: " ++ text)%string)
  end.

(** Always answers, within the second. *)
Definition quick_agent (h : list history_row) (text : string)
  : nat * agent_outcome :=
  (0, AgentReply "See section 10 of the Contract Act.").

(** One session holding messages 1..5, of which 1, 2 and 4 are the
    user's. *)
Definition five_messages : state :=
  run moody_agent init_db
    [ NewSession "a1"; Elapse 1;
      SendMessage "a1" (Some "What is a tort?");
      SendMessage "a1" (Some "Define negligence");
      Elapse 5;
      SendMessage "a1" (Some "And strict liability?") ].

(** A message of 25 characters and one of 80. *)
Definition text25 : string := "Is a verbal contract ok??".
Definition text80 : string :=
  "Can a landlord evict a tenant without notice when the rent is two months overdue".

(** A message sent to an id that names no session. *)
Definition orphaned : state :=
  run quick_agent init_db [ SendMessage "ghost" (Some "hi") ].

(** A message sent to an id after its session was deleted. *)
Definition revived : state :=
  run quick_agent init_db
    [ NewSession "s1"; DeleteSession "s1"; SendMessage "s1" (Some "hi") ].

(** One empty session. *)
Definition one_session : state :=
  run quick_agent init_db [ NewSession "s1"; Elapse 7 ].

(** A 304 answer carrying a short page. *)
Definition not_modified : Scraper.http_response :=
  Scraper.mk_response 304 "Not Modified"
    (Scraper.Returned (Scraper.mk_soup None (Some "Law Notes"))).

Definition unreachable_host (url : string)
  : Scraper.result Scraper.http_response :=
  Scraper.Raised (Scraper.RequestException "Max retries exceeded").

End Demo.

(* ================================================================== *)
(** ** The context handed to the agent *)

Definition newline : string := String "010"%char EmptyString.

Section AgentContext.

(** [str.title], as [create_legal_agent] applies it to a role. *)
Variable title : string -> string.

(** [chat_history[-5:]] *)
Definition last_five (chat_history : list history_row) : list history_row :=
  skipn (length chat_history - 5) chat_history.

(** [f"{msg['role'].title()}: {msg['content'][:200]}...\n"] *)
Definition context_line (msg : history_row) : string :=
  (title (h_role msg) ++ ": " ++ Py.slice_to 200 (h_content msg)
   ++ "..." ++ newline)%string.

(** [context_prompt] as lines 201-205 build it: empty without history,
    else the heading followed by one line per message of the last five. *)
Definition context_prompt (chat_history : list history_row) : string :=
  match chat_history with
  | [] => EmptyString
  | _ :: _ =>
      fold_left (fun acc msg => (acc ++ context_line msg)%string)
                (last_five chat_history)
                (newline ++ newline ++ "Previous conversation context:"
                 ++ newline)%string
  end.

(** The last entry of [instructions] (line 232). *)
Definition context_instruction (chat_history : list history_row) : string :=
  let p := context_prompt chat_history in
  if Py.is_empty p then EmptyString
  else ("Context from previous conversation: " ++ p)%string.

End AgentContext.

(* ================================================================== *)
(** ** Further invariants and vocabulary *)

(** A session row is in order at time [now]: created before it was last
    updated, not updated in the future, and titled within 53 characters. *)
Definition session_ok (now : nat) (s : session_row) : Prop :=
  s_created_at s <= s_updated_at s /\
  s_updated_at s <= now /\
  String.length (s_title s) <= 53.

(** The session table: ids are unique, rows are in order. *)
Definition sessions_ok (st : state) : Prop :=
  NoDup (map s_id (chat_sessions st)) /\
  Forall (session_ok (clock st)) (chat_sessions st).

(** A message row is the assistant's, or the user's with a text that is
    not empty and carries no surrounding whitespace. *)
Definition message_ok (m : message_row) : Prop :=
  m_role m = "assistant" \/
  (m_role m = "user" /\ m_content m <> EmptyString
   /\ Py.strip (m_content m) = m_content m).

Definition store_ok (st : state) : Prop :=
  sessions_ok st /\ Forall message_ok (chat_messages st).

(** The session an event is addressed to. *)
Definition addresses (e : event) (sid : string) : bool :=
  match e with
  | NewSession uuid => String.eqb uuid sid
  | SendMessage s _ => String.eqb s sid
  | DeleteSession s => String.eqb s sid
  | EditMessage s _ _ => String.eqb s sid
  | GetSessions | GetChat _ | Elapse _ => false
  end.

(** No character of [s] is whitespace. *)
Fixpoint no_space (s : string) : bool :=
  match s with
  | EmptyString => true
  | String c r => negb (Py.isspace c) && no_space r
  end.

(** What [str.split()] returns: non-empty runs free of whitespace. *)
Definition is_word (w : string) : bool :=
  negb (Py.is_empty w) && no_space w.

(** Two rows are the same message: same id, session and role (an edit
    changes text and timestamp only). *)
Definition same_row (m0 m : message_row) : Prop :=
  m_id m0 = m_id m /\ m_session_id m0 = m_session_id m
  /\ m_role m0 = m_role m.

(** From [st] to [st'] the AUTOINCREMENT counter did not go back, and
    every row of [st'] with an id the counter had reached in [st] is a row
    of [st]. *)
Definition ids_not_reused (st st' : state) : Prop :=
  sqlite_sequence st <= sqlite_sequence st' /\
  forall m, In m (chat_messages st') -> m_id m <= sqlite_sequence st ->
            exists m0, In m0 (chat_messages st) /\ same_row m0 m.

(** The listing puts later updates first. *)
Definition listed_before (a b : session_row) : Prop :=
  s_updated_at b <= s_updated_at a.

Module Samples.

(** What [str.title] makes of the two roles the application writes. *)
Definition role_title (role : string) : string :=
  if String.eqb role "user" then "User"
  else if String.eqb role "assistant" then "Assistant"
  else role.

(** Answers like [Demo.moody_agent], except that it raises when asked to
    define nuisance. *)
Definition tired_agent (h : list history_row) (text : string)
  : nat * agent_outcome :=
  if String.eqb text "Define nuisance" then (4, AgentRaises "rate limit")
  else Demo.moody_agent h text.

(** The events behind [Demo.five_messages]. *)
Definition five_events : list event :=
  [ NewSession "a1"; Elapse 1;
    SendMessage "a1" (Some "What is a tort?");
    SendMessage "a1" (Some "Define negligence");
    Elapse 5;
    SendMessage "a1" (Some "And strict liability?") ].

(** Two sessions, the older one written to last. *)
Definition two_sessions : state :=
  run Demo.quick_agent init_db
    [ NewSession "s1"; Elapse 2; NewSession "s2"; Elapse 3;
      SendMessage "s2" (Some "Is a will valid without witnesses?");
      Elapse 4;
      SendMessage "s1" (Some "What is adverse possession?") ].

(** A page whose container holds ragged text. *)
Definition ragged_page : Scraper.http_response :=
  Scraper.mk_response 200 "OK"
    (Scraper.Returned
       (Scraper.mk_soup (Some "  Law   Notes  on  Torts ") (Some "ignored"))).

(** A page with a body long enough to be returned as content. *)
Definition long_page : Scraper.http_response :=
  Scraper.mk_response 200 "OK"
    (Scraper.Returned
       (Scraper.mk_soup None
          (Some "Constitutional law  notes: fundamental rights, directive principles and duties"))).

End Samples.

(* ================================================================== *)
(** * Properties *)

(** ** Strings *)

Section PyFacts.

Import Py.

Lemma is_empty_iff (s : string) : is_empty s = true <-> s = EmptyString.
Proof. destruct s; simpl; split; congruence. Qed.

Lemma lstrip_all_space (s : string) :
  all_space s = true -> lstrip s = EmptyString.
Proof.
  induction s as [|c r IH]; simpl; [reflexivity|].
  intros H. apply andb_true_iff in H as [Hc Hr].
  rewrite Hc. auto.
Qed.

(** [lstrip] either consumes a blank string or stops at a visible
    character. *)
Lemma lstrip_cases (s : string) :
  (all_space s = true /\ lstrip s = EmptyString) \/
  (exists c r, lstrip s = String c r /\ isspace c = false).
Proof.
  induction s as [|c r IH]; simpl.
  - left; split; reflexivity.
  - destruct (isspace c) eqn:Hc; simpl.
    + destruct IH as [[Ha Hl]|IH]; [left; split; assumption | right; exact IH].
    + right. exists c, r. split; [reflexivity | assumption].
Qed.

Lemma rstrip_visible_head (c : ascii) (r : string) :
  isspace c = false -> rstrip (String c r) <> EmptyString.
Proof.
  intros Hc. simpl. rewrite Hc, andb_false_r. discriminate.
Qed.

Lemma strip_empty_iff (s : string) :
  strip s = EmptyString <-> all_space s = true.
Proof.
  unfold strip. split.
  - intros H. destruct (lstrip_cases s) as [[Ha _]|(c & r & Hl & Hc)].
    + exact Ha.
    + rewrite Hl in H. exfalso. exact (rstrip_visible_head c r Hc H).
  - intros H. rewrite (lstrip_all_space s H). reflexivity.
Qed.

Lemma slice_to_length (n : nat) (s : string) :
  String.length (slice_to n s) = Nat.min n (String.length s).
Proof.
  revert s. induction n as [|n IH]; intros [|c r]; simpl; auto.
Qed.

Lemma append_length (a b : string) :
  String.length (a ++ b)%string = String.length a + String.length b.
Proof. induction a as [|c a IH]; simpl; auto. Qed.

End PyFacts.

(** ** Titles *)

Lemma display_title_short (t : string) :
  String.length t <= 50 -> display_title t = t.
Proof.
  intros H. unfold display_title.
  destruct (Nat.ltb_spec 50 (String.length t)); [lia | reflexivity].
Qed.

Lemma display_title_long (t : string) :
  50 < String.length t ->
  display_title t = (Py.slice_to 50 t ++ "...")%string.
Proof.
  intros H. unfold display_title.
  destruct (Nat.ltb_spec 50 (String.length t)); [reflexivity | lia].
Qed.

Lemma display_title_length (t : string) :
  String.length (display_title t) <= 53.
Proof.
  destruct (Nat.le_gt_cases (String.length t) 50) as [H|H].
  - rewrite display_title_short by assumption. lia.
  - rewrite display_title_long by assumption.
    rewrite append_length, slice_to_length.
    change (String.length "...") with 3.
    pose proof (Nat.le_min_l 50 (String.length t)). lia.
Qed.

(** ** Look-ups in the session table *)

Lemma is_session_touch (sid sid' : string) (t : nat) (s : session_row) :
  is_session sid' (touch_session sid t s) = is_session sid' s.
Proof. unfold touch_session. destruct (is_session sid s); reflexivity. Qed.

Lemma is_session_retitle (sid sid' title : string) (t : nat) (s : session_row) :
  is_session sid' (retitle_session sid title t s) = is_session sid' s.
Proof. unfold retitle_session. destruct (is_session sid s); reflexivity. Qed.

Lemma find_map_same_key (f : session_row -> session_row) (sid : string)
      (l : list session_row) :
  (forall s, is_session sid (f s) = is_session sid s) ->
  find (is_session sid) (map f l) = option_map f (find (is_session sid) l).
Proof.
  intros Hf. induction l as [|s l IH]; simpl; [reflexivity|].
  rewrite Hf. destruct (is_session sid s); [reflexivity | exact IH].
Qed.

Lemma existsb_map_same_key (f : session_row -> session_row) (sid : string)
      (l : list session_row) :
  (forall s, is_session sid (f s) = is_session sid s) ->
  existsb (is_session sid) (map f l) = existsb (is_session sid) l.
Proof.
  intros Hf. induction l as [|s l IH]; simpl; [reflexivity|].
  rewrite Hf, IH. reflexivity.
Qed.

Lemma find_session_touch (sid sid' : string) (t : nat) (l : list session_row) :
  find (is_session sid') (map (touch_session sid t) l)
  = option_map (touch_session sid t) (find (is_session sid') l).
Proof. apply find_map_same_key. intros s. apply is_session_touch. Qed.

Lemma find_session_retitle (sid sid' title : string) (t : nat)
      (l : list session_row) :
  find (is_session sid') (map (retitle_session sid title t) l)
  = option_map (retitle_session sid title t) (find (is_session sid') l).
Proof. apply find_map_same_key. intros s. apply is_session_retitle. Qed.

Lemma find_is_session (sid : string) (l : list session_row) (s : session_row) :
  find (is_session sid) l = Some s -> is_session sid s = true.
Proof. intros H. apply find_some in H. tauto. Qed.

Lemma title_after_touch (sid : string) (t : nat) (s : session_row) :
  s_title (touch_session sid t s) = s_title s.
Proof. unfold touch_session. destruct (is_session sid s); reflexivity. Qed.

(** Saving a message leaves every title as it was. *)
Lemma session_title_save_message (st : state) (sid sid' role content : string) :
  session_title (save_message st sid role content) sid' = session_title st sid'.
Proof.
  unfold session_title, find_session, save_message. simpl.
  rewrite find_session_touch.
  destruct (find (is_session sid') (chat_sessions st)); simpl;
    [rewrite title_after_touch|]; reflexivity.
Qed.

Lemma session_title_elapse (d : nat) (st : state) (sid : string) :
  session_title (elapse d st) sid = session_title st sid.
Proof. reflexivity. Qed.

(** Renaming an existing session stores the display title. *)
Lemma session_title_update (st : state) (sid title : string) :
  session_exists st sid = true ->
  session_title (update_session_title st sid title) sid
  = Some (display_title title).
Proof.
  unfold session_exists, session_title, find_session, update_session_title.
  simpl. intros H. rewrite find_session_retitle.
  destruct (find (is_session sid) (chat_sessions st)) as [s|] eqn:Hf.
  - simpl. unfold retitle_session.
    rewrite (find_is_session _ _ _ Hf). reflexivity.
  - apply existsb_exists in H as (s & Hin & Hs).
    exfalso. apply (find_none _ _ Hf) in Hin. congruence.
Qed.

(** ** Sorting and the table invariant *)

Section ListFacts.

Context {A : Type}.

Lemma StronglySorted_filter (R : A -> A -> Prop) (f : A -> bool) (l : list A) :
  StronglySorted R l -> StronglySorted R (filter f l).
Proof.
  induction 1 as [|a l Hl IH Ha]; simpl; [constructor|].
  destruct (f a); [|exact IH].
  constructor; [exact IH|].
  apply Forall_forall. intros x Hx. apply filter_In in Hx as [Hx _].
  rewrite Forall_forall in Ha. auto.
Qed.

Lemma StronglySorted_snoc (R : A -> A -> Prop) (l : list A) (x : A) :
  StronglySorted R l -> Forall (fun a => R a x) l ->
  StronglySorted R (l ++ [x]).
Proof.
  induction 1 as [|a l Hl IH Ha]; simpl; intros Hx.
  - repeat constructor.
  - inversion Hx as [|? ? Hax Hlx]; subst.
    constructor; [auto|].
    apply Forall_app. split; [assumption | repeat constructor; assumption].
Qed.

Lemma StronglySorted_weaken (R R' : A -> A -> Prop) (l : list A) :
  (forall a b, In a l -> In b l -> R a b -> R' a b) ->
  StronglySorted R l -> StronglySorted R' l.
Proof.
  intros HR Hs. induction Hs as [|a l Hl IH Ha]; [constructor|].
  constructor.
  - apply IH. intros x y Hx Hy. apply HR; right; assumption.
  - rewrite Forall_forall in *. intros x Hx.
    apply HR; [left; reflexivity | right; assumption | auto].
Qed.

Lemma StronglySorted_map {B : Type} (R : B -> B -> Prop) (g : A -> B)
      (l : list A) :
  StronglySorted (fun a b => R (g a) (g b)) l -> StronglySorted R (map g l).
Proof.
  induction 1 as [|a l Hl IH Ha]; simpl; constructor; [exact IH|].
  apply Forall_map. exact Ha.
Qed.

End ListFacts.

(** A list already in timestamp order comes back from the sort as it is. *)
Lemma order_by_timestamp_sorted (l : list message_row) :
  StronglySorted (fun a b => m_timestamp a <= m_timestamp b) l ->
  order_by_timestamp l = l.
Proof.
  induction 1 as [|a l Hl IH Ha]; simpl; [reflexivity|].
  rewrite IH. destruct l as [|x r]; simpl; [reflexivity|].
  inversion Ha as [|? ? Hax _]; subst.
  apply Nat.leb_le in Hax. rewrite Hax. reflexivity.
Qed.

Lemma insert_by_timestamp_perm (m : message_row) (l : list message_row) :
  Permutation (m :: l) (insert_by_timestamp m l).
Proof.
  induction l as [|x r IH]; simpl; [apply Permutation_refl|].
  destruct (m_timestamp m <=? m_timestamp x); [apply Permutation_refl|].
  eapply perm_trans; [apply perm_swap | apply perm_skip, IH].
Qed.

(** The sort neither loses nor invents rows. *)
Lemma order_by_timestamp_perm (l : list message_row) :
  Permutation l (order_by_timestamp l).
Proof.
  induction l as [|m r IH]; simpl; [constructor|].
  eapply perm_trans; [apply perm_skip, IH | apply insert_by_timestamp_perm].
Qed.

Lemma of_session_eq (sid : string) (m : message_row) :
  of_session sid m = true <-> m_session_id m = sid.
Proof. unfold of_session. apply String.eqb_eq. Qed.

(** Inside one session the table is in (timestamp, id) order. *)
Lemma session_rows_sorted (sid : string) (l : list message_row) :
  StronglySorted row_before l ->
  StronglySorted
    (fun a b => m_id a < m_id b /\ m_timestamp a <= m_timestamp b)
    (filter (of_session sid) l).
Proof.
  intros Hs.
  apply StronglySorted_weaken with (R := row_before).
  - intros a b Ha Hb [Hid Hts].
    apply filter_In in Ha as [_ Ha]. apply filter_In in Hb as [_ Hb].
    apply of_session_eq in Ha, Hb. split; [assumption|].
    apply Hts. congruence.
  - apply StronglySorted_filter. exact Hs.
Qed.

Lemma well_formed_init : well_formed init_db.
Proof. split; constructor. Qed.

(** Rows may go, and the counter and the clock may grow. *)
Lemma well_formed_shrink (st st' : state) (f : message_row -> bool) :
  chat_messages st' = filter f (chat_messages st) ->
  sqlite_sequence st <= sqlite_sequence st' ->
  clock st <= clock st' ->
  well_formed st -> well_formed st'.
Proof.
  intros Hm Hq Hc [Hs Hb]. unfold well_formed. rewrite Hm. split.
  - apply StronglySorted_filter. exact Hs.
  - apply Forall_forall. intros m Hin. apply filter_In in Hin as [Hin _].
    rewrite Forall_forall in Hb. destruct (Hb m Hin) as [H1 H2].
    split; lia.
Qed.

Lemma well_formed_same_rows (st st' : state) :
  chat_messages st' = chat_messages st ->
  sqlite_sequence st <= sqlite_sequence st' ->
  clock st <= clock st' ->
  well_formed st -> well_formed st'.
Proof.
  intros Hm. apply well_formed_shrink with (f := fun _ => true).
  rewrite Hm. symmetry. apply forallb_filter_id.
  apply forallb_forall. reflexivity.
Qed.

Lemma well_formed_elapse (d : nat) (st : state) :
  well_formed st -> well_formed (elapse d st).
Proof. apply well_formed_same_rows; simpl; [reflexivity | lia | lia]. Qed.

Lemma well_formed_update_session_title (st : state) (sid title : string) :
  well_formed st -> well_formed (update_session_title st sid title).
Proof. apply well_formed_same_rows; simpl; [reflexivity | lia | lia]. Qed.

Lemma well_formed_save_message (st : state) (sid role content : string) :
  well_formed st -> well_formed (save_message st sid role content).
Proof.
  intros [Hs Hb]. split; simpl.
  - apply StronglySorted_snoc; [exact Hs|].
    eapply Forall_impl; [|exact Hb].
    intros m [H1 H2]. split; simpl; intros; lia.
  - apply Forall_app. split.
    + eapply Forall_impl; [|exact Hb].
      intros m [H1 H2]. split; simpl; lia.
    + repeat constructor; simpl; lia.
Qed.

Lemma overwrite_id (sid : string) (mid : nat) (c : string) (now : nat)
      (m : message_row) :
  m_id (overwrite sid mid c now m) = m_id m.
Proof. unfold overwrite. destruct (is_message sid mid m); reflexivity. Qed.

Lemma overwrite_session (sid : string) (mid : nat) (c : string) (now : nat)
      (m : message_row) :
  m_session_id (overwrite sid mid c now m) = m_session_id m.
Proof. unfold overwrite. destruct (is_message sid mid m); reflexivity. Qed.

Lemma is_message_iff (sid : string) (mid : nat) (m : message_row) :
  is_message sid mid m = true <-> m_id m = mid /\ m_session_id m = sid.
Proof.
  unfold is_message. rewrite andb_true_iff, Nat.eqb_eq, of_session_eq.
  reflexivity.
Qed.

(** Overwriting a row with the current time and dropping the later rows of
    its session keeps the table ordered. *)
Lemma truncation_sorted (sid : string) (mid : nat) (c : string) (now : nat)
      (l : list message_row) :
  StronglySorted row_before l ->
  Forall (fun m => m_timestamp m <= now) l ->
  StronglySorted row_before
    (filter (survives_truncation sid mid) (map (overwrite sid mid c now) l)).
Proof.
  induction 1 as [|a l Hl IH Ha]; intros Hb; simpl; [constructor|].
  inversion Hb as [|? ? Hta Htl]; subst.
  destruct (survives_truncation sid mid (overwrite sid mid c now a)) eqn:Hk;
    [|auto].
  constructor; [auto|].
  apply Forall_forall. intros y Hy.
  apply filter_In in Hy as [Hy Hky].
  apply in_map_iff in Hy as (b & <- & Hb').
  rewrite Forall_forall in Ha, Htl.
  destruct (Ha b Hb') as [Hid Hts]. specialize (Htl b Hb').
  split.
  - rewrite !overwrite_id. exact Hid.
  - rewrite !overwrite_session. intros Hsame. specialize (Hts Hsame).
    unfold survives_truncation in Hky.
    rewrite overwrite_id in Hky.
    unfold of_session in Hky. rewrite overwrite_session in Hky.
    unfold overwrite.
    destruct (is_message sid mid a) eqn:Hma.
    + apply is_message_iff in Hma as [Hida Hsa].
      exfalso.
      assert (Hsb : (m_session_id b =? sid)%string = true)
        by (apply String.eqb_eq; congruence).
      assert (Hlt : (mid <? m_id b) = true) by (apply Nat.ltb_lt; lia).
      rewrite Hsb, Hlt in Hky. discriminate.
    + destruct (is_message sid mid b); simpl; lia.
Qed.

Lemma well_formed_rewrite_and_truncate (st : state) (sid : string) (mid : nat)
      (c : string) :
  well_formed st -> well_formed (rewrite_and_truncate st sid mid c).
Proof.
  intros [Hs Hb]. split; simpl.
  - apply truncation_sorted; [exact Hs|].
    eapply Forall_impl; [|exact Hb]. intros m [_ H]. exact H.
  - apply Forall_forall. intros y Hy.
    apply filter_In in Hy as [Hy _].
    apply in_map_iff in Hy as (b & <- & Hb').
    rewrite Forall_forall in Hb. destruct (Hb b Hb') as [H1 H2].
    split; simpl.
    + rewrite overwrite_id. exact H1.
    + unfold overwrite. destruct (is_message sid mid b); simpl; lia.
Qed.

Section RoutesPreserve.

Variable agent_turn : list history_row -> string -> nat * agent_outcome.

Lemma well_formed_new_session (st : state) (uuid : string) :
  well_formed st -> well_formed (snd (new_session st uuid)).
Proof.
  unfold new_session, create_new_session.
  destruct (existsb (is_session uuid) (chat_sessions st)); simpl; auto.
Qed.

Lemma well_formed_send_message (st : state) (sid : string)
      (body : option string) :
  well_formed st -> well_formed (snd (send_message agent_turn st sid body)).
Proof.
  intros H. unfold send_message.
  destruct (Py.is_empty (message_field body)); [exact H|].
  set (st1 := if length (get_chat_history st sid) =? 0
              then update_session_title st sid (message_field body)
              else st).
  assert (H1 : well_formed st1).
  { subst st1. destruct (length (get_chat_history st sid) =? 0);
      [apply well_formed_update_session_title|]; exact H. }
  destruct (agent_turn _ _) as [d [r|e]]; simpl.
  - apply well_formed_save_message, well_formed_elapse,
      well_formed_save_message, H1.
  - apply well_formed_elapse, well_formed_save_message, H1.
Qed.

Lemma well_formed_delete_session (st : state) (sid : string) :
  well_formed st -> well_formed (snd (delete_session st sid)).
Proof.
  apply well_formed_shrink with (f := fun m => negb (of_session sid m));
    simpl; [reflexivity | lia | lia].
Qed.

Lemma well_formed_edit_message (st : state) (sid : string) (mid : nat)
      (body : option string) :
  well_formed st ->
  well_formed (snd (edit_message agent_turn st sid mid body)).
Proof.
  intros H. unfold edit_message.
  destruct (Py.is_empty (message_field body)); [exact H|].
  destruct (unbindable st mid); [exact H|].
  destruct (not_editable st sid mid); [exact H|].
  pose proof (well_formed_rewrite_and_truncate st sid mid
                (message_field body) H) as H1.
  destruct (agent_turn _ _) as [d [r|e]]; simpl.
  - apply well_formed_save_message, well_formed_elapse, H1.
  - apply well_formed_elapse, H1.
Qed.

Lemma well_formed_step (st : state) (e : event) :
  well_formed st -> well_formed (step agent_turn st e).
Proof.
  intros H. destruct e; unfold step; try exact H.
  - apply well_formed_new_session, H.
  - apply well_formed_send_message, H.
  - apply well_formed_delete_session, H.
  - apply well_formed_edit_message, H.
  - apply well_formed_elapse, H.
Qed.

Lemma well_formed_run (es : list event) (st : state) :
  well_formed st -> well_formed (run agent_turn st es).
Proof.
  revert st. induction es as [|e es IH]; simpl; intros st H; [exact H|].
  apply IH, well_formed_step, H.
Qed.

(** Every store the application reaches has an ordered message table. *)
Lemma reachable_well_formed (st : state) :
  reachable agent_turn st -> well_formed st.
Proof.
  intros [es ->]. apply well_formed_run, well_formed_init.
Qed.

End RoutesPreserve.

(** ** Reading a history *)

(** C2. In every store the application reaches, [get_chat_history]
    returns all the rows of the session, in the order they were inserted;
    that order is ascending by timestamp with ties broken by ascending id,
    and ids ascend along it; the id the next insertion takes is above
    every id in the table. *)
Theorem get_chat_history_insertion_order
        (agent_turn : list history_row -> string -> nat * agent_outcome)
        (st : state) (sid : string) :
  reachable agent_turn st ->
  get_chat_history st sid = map history_of (session_messages st sid) /\
  StronglySorted history_before (get_chat_history st sid) /\
  StronglySorted (fun a b => h_id a < h_id b) (get_chat_history st sid) /\
  (forall m, In m (chat_messages st) -> m_id m < S (sqlite_sequence st)).
Proof.
  intros Hr. apply reachable_well_formed in Hr as [Hs Hb].
  pose proof (session_rows_sorted sid _ Hs) as Hsess.
  assert (Heq : get_chat_history st sid
                = map history_of (session_messages st sid)).
  { unfold get_chat_history, session_messages. f_equal.
    apply order_by_timestamp_sorted.
    eapply StronglySorted_weaken; [|exact Hsess].
    intros a b _ _ [_ H]. exact H. }
  split; [exact Heq|]. rewrite Heq. unfold session_messages.
  split; [|split].
  - apply StronglySorted_map.
    eapply StronglySorted_weaken; [|exact Hsess].
    intros a b _ _ [Hid Hts]. unfold history_before. simpl. lia.
  - apply StronglySorted_map.
    eapply StronglySorted_weaken; [|exact Hsess].
    intros a b _ _ [Hid _]. exact Hid.
  - intros m Hin. rewrite Forall_forall in Hb.
    destruct (Hb m Hin) as [Hle _]. lia.
Qed.

Lemma get_chat_history_insertion_order_witness :
  get_chat_history Demo.five_messages "a1"
  = map history_of (session_messages Demo.five_messages "a1") /\
  StronglySorted history_before (get_chat_history Demo.five_messages "a1") /\
  StronglySorted (fun a b => h_id a < h_id b)
                 (get_chat_history Demo.five_messages "a1") /\
  (forall m, In m (chat_messages Demo.five_messages) ->
             m_id m < S (sqlite_sequence Demo.five_messages)).
Proof.
  apply (get_chat_history_insertion_order Demo.moody_agent).
  eexists. reflexivity.
Defined.

(** Whatever the store, the result is the session's rows sorted by
    timestamp. *)
Lemma get_chat_history_perm (st : state) (sid : string) :
  Permutation (map history_of (session_messages st sid))
              (get_chat_history st sid).
Proof. apply Permutation_map, order_by_timestamp_perm. Qed.

(** ** Sending a message *)

Lemma send_message_accepted
      (agent_turn : list history_row -> string -> nat * agent_outcome)
      (st : state) (sid : string) (body : option string) :
  message_field body <> EmptyString ->
  send_message agent_turn st sid body =
  let m := message_field body in
  let h := get_chat_history st sid in
  let st2 := save_message
               (if length h =? 0 then update_session_title st sid m else st)
               sid "user" m in
  match agent_turn h m with
  | (d, AgentRaises e) =>
      (JsonError 500 "Internal server error" (Some e), elapse d st2)
  | (d, AgentReply r) =>
      (Json200 (Reply r), save_message (elapse d st2) sid "assistant" r)
  end.
Proof.
  intros Hm. unfold send_message.
  destruct (Py.is_empty (message_field body)) eqn:He; [|reflexivity].
  apply is_empty_iff in He. contradiction.
Qed.

(** C3. The display title is the raw title when it has at most 50
    characters and its first 50 characters followed by three dots
    otherwise, hence never longer than 53; and the first message sent to
    an existing session (empty history when checked) becomes its title this
    way, verbatim at length 25 and cut to 50 characters plus dots at
    length 80.  The message is the request's text with surrounding
    whitespace stripped. *)
Theorem first_message_titles_session :
  (forall t : string,
      String.length (display_title t) <= 53 /\
      (String.length t <= 50 -> display_title t = t) /\
      (50 < String.length t ->
       display_title t = (Py.slice_to 50 t ++ "...")%string)) /\
  (forall (agent_turn : list history_row -> string -> nat * agent_outcome)
          (st : state) (sid : string) (body : option string),
      let m := message_field body in
      let st' := snd (send_message agent_turn st sid body) in
      session_exists st sid = true ->
      get_chat_history st sid = [] ->
      m <> EmptyString ->
      session_title st' sid = Some (display_title m) /\
      (String.length m = 25 -> session_title st' sid = Some m) /\
      (String.length m = 80 ->
       session_title st' sid = Some (Py.slice_to 50 m ++ "...")%string)).
Proof.
  split.
  - intros t. split; [apply display_title_length|].
    split; [apply display_title_short | apply display_title_long].
  - intros agent_turn st sid body m st' Hex Hh Hm.
    assert (Ht : session_title st' sid = Some (display_title m)).
    { subst st'. rewrite send_message_accepted by exact Hm.
      cbv zeta. rewrite Hh. simpl length. simpl Nat.eqb. cbv iota.
      destruct (agent_turn [] (message_field body)) as [d [r|e]]; simpl snd.
      - rewrite session_title_save_message, session_title_elapse,
          session_title_save_message.
        apply session_title_update. exact Hex.
      - rewrite session_title_elapse, session_title_save_message.
        apply session_title_update. exact Hex. }
    split; [exact Ht|]. split; intros Hl; rewrite Ht; f_equal.
    + apply display_title_short. lia.
    + apply display_title_long. lia.
Qed.

Lemma first_message_titles_session_witness :
  session_title
    (snd (send_message Demo.quick_agent Demo.one_session "s1"
                       (Some Demo.text25))) "s1" = Some Demo.text25 /\
  session_title
    (snd (send_message Demo.moody_agent Demo.one_session "s1"
                       (Some Demo.text80))) "s1"
  = Some "Can a landlord evict a tenant without notice when ...".
Proof.
  split.
  - apply (proj2 first_message_titles_session Demo.quick_agent
                 Demo.one_session "s1" (Some Demo.text25));
      [reflexivity | reflexivity | discriminate | reflexivity].
  - apply (proj2 first_message_titles_session Demo.moody_agent
                 Demo.one_session "s1" (Some Demo.text80));
      [reflexivity | reflexivity | discriminate | reflexivity].
Defined.

(** C8. A send-message request whose message is empty, missing or made of
    whitespace only is answered 400 and leaves the store exactly as it
    was. *)
Theorem send_message_blank_rejected
        (agent_turn : list history_row -> string -> nat * agent_outcome)
        (st : state) (sid : string) (body : option string) :
  Py.all_space (raw_message body) = true ->
  send_message agent_turn st sid body
  = (JsonError 400 "Message cannot be empty" None, st).
Proof.
  intros H. unfold send_message, message_field.
  apply strip_empty_iff in H. rewrite H. reflexivity.
Qed.

Lemma send_message_blank_rejected_witness :
  send_message Demo.quick_agent Demo.five_messages "a1"
               (Some (String " " (String "009" (String "010" " "))))
  = (JsonError 400 "Message cannot be empty" None, Demo.five_messages).
Proof.
  apply send_message_blank_rejected. reflexivity.
Defined.

(** C10. When the agent raises during a send-message request with a
    non-empty message, the answer is 500, the user's message is in the
    store (and the title it gave to a session without history stays), and
    no assistant message was written. *)
Theorem send_message_agent_failure
        (agent_turn : list history_row -> string -> nat * agent_outcome)
        (st : state) (sid : string) (body : option string)
        (d : nat) (e : string) :
  let m := message_field body in
  let r := send_message agent_turn st sid body in
  m <> EmptyString ->
  agent_turn (get_chat_history st sid) m = (d, AgentRaises e) ->
  fst r = JsonError 500 "Internal server error" (Some e) /\
  chat_messages (snd r)
  = chat_messages st
    ++ [mk_message (S (sqlite_sequence st)) sid "user" m (clock st)] /\
  (get_chat_history st sid = [] -> session_exists st sid = true ->
   session_title (snd r) sid = Some (display_title m)) /\
  (get_chat_history st sid <> [] ->
   session_title (snd r) sid = session_title st sid).
Proof.
  intros m r Hm Ha. subst r.
  rewrite send_message_accepted by exact Hm. cbv zeta.
  fold m. rewrite Ha. simpl fst. simpl snd.
  split; [reflexivity|]. split.
  - simpl. destruct (length (get_chat_history st sid) =? 0); reflexivity.
  - rewrite !session_title_elapse, !session_title_save_message. split.
    + intros Hh Hex. rewrite Hh. simpl.
      apply session_title_update. exact Hex.
    + intros Hh. destruct (get_chat_history st sid); [congruence|].
      reflexivity.
Qed.

Lemma send_message_agent_failure_witness :
  let r := send_message Demo.moody_agent Demo.one_session "s1"
                        (Some "  Is bail a right? ") in
  fst r = JsonError 500 "Internal server error" (Some "provider unavailable")
  /\ chat_messages (snd r)
     = [mk_message 1 "s1" "user" "Is bail a right?" 7]
  /\ session_title (snd r) "s1" = Some "Is bail a right?".
Proof.
  destruct (send_message_agent_failure Demo.moody_agent Demo.one_session
              "s1" (Some "  Is bail a right? ") 3 "provider unavailable")
    as (H1 & H2 & H3 & _); [discriminate | reflexivity |].
  split; [exact H1|]. split; [exact H2|].
  apply H3; reflexivity.
Defined.

(** ** Deleting a session *)

Lemma filter_filter_negb {A : Type} (f : A -> bool) (l : list A) :
  filter f (filter (fun x => negb (f x)) l) = [].
Proof.
  induction l as [|a l IH]; simpl; [reflexivity|].
  destruct (f a) eqn:Hf; simpl; [|rewrite Hf]; exact IH.
Qed.

Lemma of_session_other (sid sid' : string) (m : message_row) :
  sid' <> sid -> of_session sid' m = true -> of_session sid m = false.
Proof.
  intros Hne H. apply of_session_eq in H.
  unfold of_session. apply String.eqb_neq. congruence.
Qed.

Lemma is_session_other (sid sid' : string) (s : session_row) :
  sid' <> sid -> is_session sid' s = true -> is_session sid s = false.
Proof.
  unfold is_session. intros Hne H. apply String.eqb_eq in H.
  apply String.eqb_neq. congruence.
Qed.

Lemma find_filter_other (sid sid' : string) (l : list session_row) :
  sid' <> sid ->
  find (is_session sid') (filter (fun s => negb (is_session sid s)) l)
  = find (is_session sid') l.
Proof.
  intros Hne. induction l as [|s l IH]; simpl; [reflexivity|].
  destruct (is_session sid' s) eqn:H'.
  - rewrite (is_session_other sid sid' s Hne H'). simpl. rewrite H'.
    reflexivity.
  - destruct (is_session sid s); simpl; [|rewrite H']; exact IH.
Qed.

Lemma filter_other_session (sid sid' : string) (l : list message_row) :
  sid' <> sid ->
  filter (of_session sid') (filter (fun m => negb (of_session sid m)) l)
  = filter (of_session sid') l.
Proof.
  intros Hne. induction l as [|m l IH]; simpl; [reflexivity|].
  destruct (of_session sid' m) eqn:H'.
  - rewrite (of_session_other sid sid' m Hne H'). simpl. rewrite H', IH.
    reflexivity.
  - destruct (of_session sid m); simpl; [|rewrite H']; exact IH.
Qed.

(** C6. [delete_session] answers success and leaves neither a message of
    the session nor the session row; a later [get_chat_history] for the id
    is empty.  Other sessions keep their rows. *)
Theorem delete_session_cascades (st : state) (sid : string) :
  let st' := snd (delete_session st sid) in
  fst (delete_session st sid) = Json200 StatusSuccess /\
  (forall m, In m (chat_messages st') -> m_session_id m <> sid) /\
  session_messages st' sid = [] /\
  session_exists st' sid = false /\
  find_session st' sid = None /\
  get_chat_history st' sid = [] /\
  (forall sid', sid' <> sid ->
     session_messages st' sid' = session_messages st sid' /\
     find_session st' sid' = find_session st sid').
Proof.
  simpl. split; [reflexivity|].
  assert (Hnone : find (is_session sid)
                    (filter (fun s => negb (is_session sid s))
                            (chat_sessions st)) = None).
  { induction (chat_sessions st) as [|s l IH]; simpl; [reflexivity|].
    destruct (is_session sid s) eqn:H; simpl; [|rewrite H]; exact IH. }
  repeat split.
  - intros m Hin Heq. apply filter_In in Hin as [_ Hin].
    apply of_session_eq in Heq. rewrite Heq in Hin. discriminate.
  - apply filter_filter_negb.
  - unfold session_exists; simpl.
    destruct (existsb _ _) eqn:He; [|reflexivity].
    apply existsb_exists in He as (s & Hin & Hs).
    apply (find_none _ _ Hnone) in Hin. congruence.
  - exact Hnone.
  - unfold get_chat_history; simpl.
    rewrite (filter_filter_negb (of_session sid)). reflexivity.
  - apply filter_other_session. assumption.
  - apply find_filter_other. assumption.
Qed.

(** ** Unknown session ids *)

(** Counterexample to C7 as worded: after a message was sent to an id that
    names no session, and likewise to the id of a deleted session, the id is
    still not in the session table, yet its history is not empty. *)
Lemma get_chat_history_unknown_nonempty :
  reachable Demo.quick_agent Demo.orphaned /\
  session_exists Demo.orphaned "ghost" = false /\
  get_chat_history Demo.orphaned "ghost"
  = [ mk_history 1 "user" "hi" 0;
      mk_history 2 "assistant" "See section 10 of the Contract Act." 0 ] /\
  reachable Demo.quick_agent Demo.revived /\
  session_exists Demo.revived "s1" = false /\
  get_chat (Demo.revived) "s1" <> Json200 (History []).
Proof.
  split; [eexists; reflexivity|].
  split; [reflexivity|]. split; [reflexivity|].
  split; [eexists; reflexivity|].
  split; [reflexivity | discriminate].
Qed.

Lemma referential_integrity_spec (st : state) :
  referential_integrity st = true <->
  forall m, In m (chat_messages st) ->
            session_exists st (m_session_id m) = true.
Proof. unfold referential_integrity. apply forallb_forall. Qed.

(** C7, amended. In a store where every message belongs to an existing
    session, the history of an id that names no session is empty, and the
    route answers it as a success, not an error. *)
Theorem get_chat_history_unknown_session (st : state) (sid : string) :
  referential_integrity st = true ->
  session_exists st sid = false ->
  get_chat_history st sid = [] /\
  get_chat st sid = Json200 (History []).
Proof.
  intros Hri Hno.
  assert (Hnil : filter (of_session sid) (chat_messages st) = []).
  { rewrite referential_integrity_spec in Hri.
    destruct (filter (of_session sid) (chat_messages st)) as [|m l] eqn:Hf;
      [reflexivity|].
    assert (Hin : In m (filter (of_session sid) (chat_messages st)))
      by (rewrite Hf; left; reflexivity).
    apply filter_In in Hin as [Hin Hs]. apply of_session_eq in Hs.
    specialize (Hri m Hin). congruence. }
  unfold get_chat, get_chat_history. rewrite Hnil. split; reflexivity.
Qed.

Lemma get_chat_history_unknown_session_witness :
  get_chat_history Demo.five_messages "b2" = [] /\
  get_chat Demo.five_messages "b2" = Json200 (History []).
Proof.
  apply get_chat_history_unknown_session; reflexivity.
Defined.

(** ** Messages and the sessions they point at *)

(** C4. A send-message request for an id that names no session stores the
    user's message all the same, whatever the agent then does: the store
    holds a message whose session row does not exist. *)
Theorem send_message_unknown_session_orphans
        (agent_turn : list history_row -> string -> nat * agent_outcome) :
  let st' := step agent_turn init_db (SendMessage "ghost" (Some "hi")) in
  In (mk_message 1 "ghost" "user" "hi" 0) (chat_messages st') /\
  session_exists st' "ghost" = false /\
  referential_integrity st' = false.
Proof.
  intros st'. subst st'. unfold step.
  rewrite send_message_accepted by discriminate. cbv zeta.
  change (message_field (Some "hi")) with "hi".
  change (get_chat_history init_db "ghost") with (@nil history_row).
  destruct (agent_turn [] "hi") as [d [r|e]];
    (split; [cbn; left; reflexivity | split; reflexivity]).
Qed.

Section Integrity.

Variable agent_turn : list history_row -> string -> nat * agent_outcome.

Lemma session_exists_save_message (st : state) (sid sid' role c : string) :
  session_exists (save_message st sid role c) sid' = session_exists st sid'.
Proof.
  unfold session_exists. simpl. apply existsb_map_same_key.
  intros s. apply is_session_touch.
Qed.

Lemma session_exists_update_title (st : state) (sid sid' t : string) :
  session_exists (update_session_title st sid t) sid'
  = session_exists st sid'.
Proof.
  unfold session_exists. simpl. apply existsb_map_same_key.
  intros s. apply is_session_retitle.
Qed.

Lemma session_exists_truncate (st : state) (sid sid' : string) (mid : nat)
      (c : string) :
  session_exists (rewrite_and_truncate st sid mid c) sid'
  = session_exists st sid'.
Proof.
  unfold session_exists. simpl. apply existsb_map_same_key.
  intros s. apply is_session_touch.
Qed.

Lemma integrity_save_message (st : state) (sid role c : string) :
  referential_integrity st = true ->
  session_exists st sid = true ->
  referential_integrity (save_message st sid role c) = true.
Proof.
  rewrite !referential_integrity_spec. intros H Hex m Hin.
  rewrite session_exists_save_message.
  simpl in Hin. apply in_app_or in Hin as [Hin|Hin]; [auto|].
  simpl in Hin. destruct Hin as [<-|Hin]; [exact Hex | contradiction].
Qed.

Lemma integrity_same_sessions (st st' : state) :
  (forall sid, session_exists st' sid = session_exists st sid) ->
  (forall m, In m (chat_messages st') ->
             exists m0, In m0 (chat_messages st)
                        /\ m_session_id m0 = m_session_id m) ->
  referential_integrity st = true -> referential_integrity st' = true.
Proof.
  rewrite !referential_integrity_spec. intros Hs Hm H m Hin.
  destruct (Hm m Hin) as (m0 & Hin0 & Heq).
  rewrite Hs, <- Heq. auto.
Qed.

Lemma integrity_elapse (d : nat) (st : state) :
  referential_integrity (elapse d st) = referential_integrity st.
Proof. reflexivity. Qed.

Lemma integrity_new_session (st : state) (uuid : string) :
  referential_integrity st = true ->
  referential_integrity (snd (new_session st uuid)) = true.
Proof.
  unfold new_session, create_new_session.
  destruct (existsb (is_session uuid) (chat_sessions st)); simpl; [auto|].
  rewrite !referential_integrity_spec. intros H m Hin.
  specialize (H m Hin). unfold session_exists in *. simpl.
  rewrite existsb_app, H. reflexivity.
Qed.

Lemma integrity_send_message (st : state) (sid : string)
      (body : option string) :
  referential_integrity st = true ->
  session_exists st sid = true ->
  referential_integrity (snd (send_message agent_turn st sid body)) = true.
Proof.
  intros H Hex. unfold send_message.
  destruct (Py.is_empty (message_field body)); [exact H|].
  set (st1 := if length (get_chat_history st sid) =? 0
              then update_session_title st sid (message_field body)
              else st).
  assert (H1 : referential_integrity st1 = true
               /\ session_exists st1 sid = true).
  { subst st1. destruct (length (get_chat_history st sid) =? 0);
      [|split; assumption].
    split; [|rewrite session_exists_update_title; exact Hex].
    apply integrity_same_sessions with (st := st); [| |exact H].
    - intros s. apply session_exists_update_title.
    - intros m Hin. exists m. split; [exact Hin | reflexivity]. }
  destruct H1 as [H1 Hex1].
  pose proof (integrity_save_message st1 sid "user" (message_field body)
                H1 Hex1) as H2.
  destruct (agent_turn _ _) as [d [r|e]]; simpl; [|exact H2].
  apply integrity_save_message; [exact H2|].
  change (session_exists (save_message st1 sid "user" (message_field body))
                         sid = true).
  rewrite session_exists_save_message. exact Hex1.
Qed.

Lemma integrity_delete_session (st : state) (sid : string) :
  referential_integrity st = true ->
  referential_integrity (snd (delete_session st sid)) = true.
Proof.
  rewrite !referential_integrity_spec. simpl. intros H m Hin.
  apply filter_In in Hin as [Hin Hm]. specialize (H m Hin).
  unfold session_exists in *. simpl.
  apply existsb_exists in H as (s & Hs & His).
  apply existsb_exists. exists s. split; [|exact His].
  apply filter_In. split; [exact Hs|].
  unfold is_session in *. apply String.eqb_eq in His.
  unfold of_session in Hm. rewrite <- His in Hm.
  exact Hm.
Qed.

Lemma fetch_message_some (st : state) (sid : string) (mid : nat)
      (m : message_row) :
  fetch_message st sid mid = Some m ->
  In m (chat_messages st) /\ m_id m = mid /\ m_session_id m = sid.
Proof.
  intros H. apply find_some in H as [Hin H].
  apply is_message_iff in H. tauto.
Qed.

Lemma integrity_edit_message (st : state) (sid : string) (mid : nat)
      (body : option string) :
  referential_integrity st = true ->
  referential_integrity (snd (edit_message agent_turn st sid mid body))
  = true.
Proof.
  intros H. unfold edit_message.
  destruct (Py.is_empty (message_field body)); [exact H|].
  destruct (unbindable st mid); [exact H|].
  unfold not_editable.
  destruct (fetch_message st sid mid) as [m0|] eqn:Hf; [|exact H].
  destruct (negb (m_role m0 =? "user")%string); [exact H|].
  apply fetch_message_some in Hf as (Hin0 & _ & Hs0).
  assert (Hex : session_exists st sid = true).
  { rewrite referential_integrity_spec in H. rewrite <- Hs0. auto. }
  set (st1 := rewrite_and_truncate st sid mid (message_field body)).
  assert (H1 : referential_integrity st1 = true).
  { apply integrity_same_sessions with (st := st); [| |exact H].
    - intros s. apply session_exists_truncate.
    - intros m Hin. simpl in Hin. apply filter_In in Hin as [Hin _].
      apply in_map_iff in Hin as (b & <- & Hb).
      exists b. split; [exact Hb|]. symmetry. apply overwrite_session. }
  destruct (agent_turn _ _) as [d [r|e]]; simpl; [|exact H1].
  apply integrity_save_message; [exact H1|].
  change (session_exists st1 sid = true).
  subst st1. rewrite session_exists_truncate. exact Hex.
Qed.

(** As long as messages are only sent to sessions that exist, every
    message row keeps a session row. *)
Lemma integrity_run (es : list event) (st : state) :
  referential_integrity st = true ->
  sends_to_sessions agent_turn st es ->
  referential_integrity (run agent_turn st es) = true.
Proof.
  revert st. induction es as [|e es IH]; simpl; intros st H Hs; [exact H|].
  destruct Hs as [He Hs]. apply IH; [|exact Hs].
  destruct e; unfold step; try exact H.
  - apply integrity_new_session, H.
  - apply integrity_send_message; assumption.
  - apply integrity_delete_session, H.
  - apply integrity_edit_message, H.
Qed.

End Integrity.

(** ** Editing: refusals *)

Lemma fetch_message_none (st : state) (sid : string) (mid : nat) :
  fetch_message st sid mid = None <->
  forall m, In m (chat_messages st) ->
            ~ (m_id m = mid /\ m_session_id m = sid).
Proof.
  unfold fetch_message. split.
  - intros H m Hin Hm. apply is_message_iff in Hm.
    apply (find_none _ _ H) in Hin. congruence.
  - intros H. destruct (find _ _) as [m|] eqn:Hf; [|reflexivity].
    apply find_some in Hf as [Hin Hm]. apply is_message_iff in Hm.
    exfalso. exact (H m Hin Hm).
Qed.

(** The test of line 328 in the words of the specification. *)
Lemma not_editable_spec (st : state) (sid : string) (mid : nat) :
  not_editable st sid mid = true <->
  (forall m, In m (chat_messages st) ->
             ~ (m_id m = mid /\ m_session_id m = sid)) \/
  (exists m, fetch_message st sid mid = Some m /\ m_role m <> "user").
Proof.
  unfold not_editable.
  destruct (fetch_message st sid mid) as [m|] eqn:Hf.
  - rewrite negb_true_iff, String.eqb_neq. split.
    + intros H. right. exists m. split; [reflexivity | exact H].
    + intros [H|(m' & Hm' & Hr)]; [|congruence].
      apply fetch_message_none in H. congruence.
  - split; [|reflexivity]. intros _. left.
    apply fetch_message_none. exact Hf.
Qed.

(** Counterexample to C5 as worded: message 3 of the session is the
    assistant's, so the edit is one the claim answers 404; with a blank
    new text the route answers 400. *)
Lemma edit_message_blank_is_400 :
  (exists m, fetch_message Demo.five_messages "a1" 3 = Some m
             /\ m_role m = "assistant") /\
  not_editable Demo.five_messages "a1" 3 = true /\
  edit_message Demo.quick_agent Demo.five_messages "a1" 3 (Some "  ")
  = (JsonError 400 "Message cannot be empty" None, Demo.five_messages).
Proof.
  split; [eexists; split; reflexivity|]. split; reflexivity.
Qed.

Lemma in_range_bindable (st : state) (mid : nat) :
  (N.of_nat mid <= sqlite_max_integer)%N -> unbindable st mid = false.
Proof.
  intros H. unfold unbindable.
  replace (sqlite_max_integer <? N.of_nat mid)%N with false
    by (symmetry; apply N.ltb_ge; exact H).
  apply andb_false_r.
Qed.

(** With a counter within SQLite's range the test is the comparison of
    the id with the largest INTEGER. *)
Lemma unbindable_in_range (st : state) (mid : nat) :
  (N.of_nat (sqlite_sequence st) <= sqlite_max_integer)%N ->
  unbindable st mid = (sqlite_max_integer <? N.of_nat mid)%N.
Proof.
  intros Hq. unfold unbindable.
  destruct (N.ltb_spec sqlite_max_integer (N.of_nat mid)) as [Hbig|Hok].
  - rewrite andb_true_r. apply Nat.ltb_lt. lia.
  - apply andb_false_r.
Qed.

Lemma out_of_range_unbindable (st : state) (mid : nat) :
  (N.of_nat (sqlite_sequence st) <= sqlite_max_integer)%N ->
  (sqlite_max_integer < N.of_nat mid)%N ->
  unbindable st mid = true.
Proof.
  intros Hq Hm. unfold unbindable. apply andb_true_iff. split.
  - apply Nat.ltb_lt. lia.
  - apply N.ltb_lt. exact Hm.
Qed.

(** C5, amended. For a new text that is not blank and a message id that
    SQLite holds (at most 2^63 - 1), [edit_message] answers 404 exactly
    when no message with the id exists under the session or the message
    found is not the user's; on that answer the store is unchanged.  An id
    above 2^63 - 1 cannot be bound to the look-up: the answer is 500 and
    the store is unchanged. *)
Theorem edit_message_refused_iff
        (agent_turn : list history_row -> string -> nat * agent_outcome)
        (st : state) (sid : string) (mid : nat) (body : option string) :
  message_field body <> EmptyString ->
  let r := edit_message agent_turn st sid mid body in
  ((N.of_nat mid <= sqlite_max_integer)%N ->
   (status_of (fst r) = 404 <->
    ((forall m, In m (chat_messages st) ->
                ~ (m_id m = mid /\ m_session_id m = sid)) \/
     (exists m, fetch_message st sid mid = Some m /\ m_role m <> "user"))))
  /\
  (status_of (fst r) = 404 ->
   r = (JsonError 404 "Message not found or cannot edit assistant messages"
                  None, st))
  /\
  ((N.of_nat (sqlite_sequence st) <= sqlite_max_integer)%N ->
   (sqlite_max_integer < N.of_nat mid)%N ->
   r = (JsonError 500 "Internal server error" (Some overflow_text), st)).
Proof.
  intros Hm r. subst r. unfold edit_message.
  destruct (Py.is_empty (message_field body)) eqn:He.
  { apply is_empty_iff in He. contradiction. }
  split; [|split].
  - intros Hrange. rewrite (in_range_bindable st mid Hrange).
    rewrite <- not_editable_spec.
    destruct (not_editable st sid mid).
    + simpl. split; reflexivity.
    + destruct (agent_turn _ _) as [d [a|e]]; simpl; split; discriminate.
  - destruct (unbindable st mid); [simpl; discriminate|].
    destruct (not_editable st sid mid); [reflexivity|].
    destruct (agent_turn _ _) as [d [a|e]]; simpl; discriminate.
  - intros Hq Hbig. rewrite (out_of_range_unbindable st mid Hq Hbig).
    reflexivity.
Qed.

Lemma edit_message_refused_iff_witness :
  edit_message Demo.quick_agent Demo.five_messages "a1" 3
               (Some "Rewrite the answer")
  = (JsonError 404 "Message not found or cannot edit assistant messages"
               None, Demo.five_messages) /\
  edit_message Demo.quick_agent Demo.five_messages "a1"
               (N.to_nat 9223372036854775808) (Some "Rewrite the answer")
  = (JsonError 500 "Internal server error" (Some overflow_text),
     Demo.five_messages).
Proof.
  assert (Hb : message_field (Some "Rewrite the answer") <> EmptyString)
    by (vm_compute; discriminate).
  split.
  - pose proof (edit_message_refused_iff Demo.quick_agent Demo.five_messages
                  "a1" 3 (Some "Rewrite the answer") Hb) as H.
    cbv zeta in H. destruct H as (_ & H & _). apply H.
    vm_compute. reflexivity.
  - pose proof (edit_message_refused_iff Demo.quick_agent Demo.five_messages
                  "a1" (N.to_nat 9223372036854775808)
                  (Some "Rewrite the answer") Hb) as H.
    cbv zeta in H. destruct H as (_ & _ & H). apply H.
    + vm_compute. discriminate.
    + rewrite N2Nat.id. reflexivity.
Defined.

(** ** The scraper tool *)

Section ScraperFacts.

Import Scraper.

Lemma raise_for_status_iff (url : string) (r : http_response) :
  (exists e, raise_for_status url r = Raised e) <->
  400 <= status_code r < 600.
Proof.
  unfold raise_for_status.
  destruct ((400 <=? status_code r) && (status_code r <? 500)) eqn:E4.
  - apply andb_true_iff in E4 as [H1 H2].
    apply Nat.leb_le in H1. apply Nat.ltb_lt in H2.
    split; [lia | intros _; eexists; reflexivity].
  - destruct ((500 <=? status_code r) && (status_code r <? 600)) eqn:E5.
    + apply andb_true_iff in E5 as [H1 H2].
      apply Nat.leb_le in H1. apply Nat.ltb_lt in H2.
      split; [lia | intros _; eexists; reflexivity].
    + split; [intros [e H]; discriminate|]. intros [H1 H2]. exfalso.
      apply andb_false_iff in E4, E5.
      rewrite Nat.leb_gt, Nat.ltb_ge in E4, E5. lia.
Qed.

(** Whatever is raised inside the [try] comes out as an "Error:" text. *)
Lemma run_handles (requests_get : string -> result http_response) (e : exn) :
  attempt requests_get = Raised e ->
  exists s, run requests_get = Returned s
            /\ Py.startswith "Error:" s = true.
Proof.
  unfold run. intros ->.
  destruct e as [msg|msg]; eexists; split; reflexivity.
Qed.

Lemma fetch_failed_attempt (requests_get : string -> result http_response) :
  fetch_failed requests_get = true ->
  exists e, attempt requests_get = Raised e.
Proof.
  unfold fetch_failed, attempt, bind.
  destruct (requests_get fixed_url) as [r|e]; [|eexists; reflexivity].
  destruct (raise_for_status fixed_url r) as [u|e];
    [discriminate | eexists; reflexivity].
Qed.

End ScraperFacts.

(** Counterexample to C9 as worded: 304 is a status outside 2xx, and the
    tool answers it with the short-content text, not with an "Error:"
    text. *)
Lemma scraper_non_2xx_without_error :
  Scraper.non_2xx Demo.not_modified = true /\
  Scraper.run (fun _ => Scraper.Returned Demo.not_modified)
  = Scraper.Returned
      "Successfully accessed URL https://lawbhoomi.com/law-notes/, but extracted very little content. Extracted snippet: Law Notes..." /\
  Py.startswith "Error:"
      "Successfully accessed URL https://lawbhoomi.com/law-notes/, but extracted very little content. Extracted snippet: Law Notes..."
  = false.
Proof. repeat split. Qed.

(** C9, amended. [run] always returns a string and never raises; when
    [requests.get] raises or the status is 4xx or 5xx, and whenever
    anything else raises inside the [try], the string begins with
    "Error:". *)
Theorem scraper_run_never_raises
        (requests_get : string -> Scraper.result Scraper.http_response) :
  (exists s, Scraper.run requests_get = Scraper.Returned s) /\
  (Scraper.fetch_failed requests_get = true ->
   exists s, Scraper.run requests_get = Scraper.Returned s
             /\ Py.startswith "Error:" s = true) /\
  (forall r, requests_get Scraper.fixed_url = Scraper.Returned r ->
             400 <= Scraper.status_code r < 600 ->
             Scraper.fetch_failed requests_get = true) /\
  (forall e, requests_get Scraper.fixed_url = Scraper.Raised e ->
             Scraper.fetch_failed requests_get = true).
Proof.
  split; [|split; [|split]].
  - unfold Scraper.run.
    destruct (Scraper.attempt requests_get) as [s|[msg|msg]];
      eexists; reflexivity.
  - intros H. apply fetch_failed_attempt in H as [e H].
    exact (run_handles requests_get e H).
  - intros r Hr Hs. unfold Scraper.fetch_failed. rewrite Hr.
    apply (raise_for_status_iff Scraper.fixed_url) in Hs as [e He].
    rewrite He. reflexivity.
  - intros e He. unfold Scraper.fetch_failed. rewrite He. reflexivity.
Qed.

Lemma scraper_run_never_raises_witness :
  exists s, Scraper.run Demo.unreachable_host = Scraper.Returned s
            /\ Py.startswith "Error:" s = true.
Proof.
  apply (scraper_run_never_raises Demo.unreachable_host). reflexivity.
Defined.

(** ** Editing: rewrite, truncate, answer again *)

(** With an ordered table the sort of [get_chat_history] has nothing to
    do. *)
Lemma well_formed_history (st : state) (sid : string) :
  well_formed st ->
  get_chat_history st sid = map history_of (session_messages st sid).
Proof.
  intros [Hs _]. unfold get_chat_history, session_messages. f_equal.
  apply order_by_timestamp_sorted.
  eapply StronglySorted_weaken; [|exact (session_rows_sorted sid _ Hs)].
  intros a b _ _ [_ H]. exact H.
Qed.

Lemma of_session_overwrite (sid sid' : string) (mid : nat) (c : string)
      (now : nat) (m : message_row) :
  of_session sid' (overwrite sid mid c now m) = of_session sid' m.
Proof. unfold of_session. rewrite overwrite_session. reflexivity. Qed.

Lemma overwrite_other (sid : string) (mid : nat) (c : string) (now : nat)
      (m : message_row) :
  is_message sid mid m = false -> overwrite sid mid c now m = m.
Proof. unfold overwrite. intros ->. reflexivity. Qed.

(** The transaction of an edit leaves the rows of other sessions alone. *)
Lemma truncation_other_session (sid sid' : string) (mid : nat) (c : string)
      (now : nat) (l : list message_row) :
  sid' <> sid ->
  filter (of_session sid')
         (filter (survives_truncation sid mid)
                 (map (overwrite sid mid c now) l))
  = filter (of_session sid') l.
Proof.
  intros Hne. induction l as [|m l IH]; simpl; [reflexivity|].
  destruct (of_session sid' m) eqn:H'.
  - pose proof (of_session_other sid sid' m Hne H') as Hs.
    assert (Hm : is_message sid mid m = false)
      by (unfold is_message; rewrite Hs; apply andb_false_r).
    rewrite (overwrite_other sid mid c now m Hm).
    unfold survives_truncation at 1. rewrite Hs. simpl.
    rewrite H', IH. reflexivity.
  - destruct (survives_truncation sid mid (overwrite sid mid c now m));
      simpl; [|exact IH].
    rewrite of_session_overwrite, H'. exact IH.
Qed.

(** Rows whose ids are above the edited one: those of the session go. *)
Lemma truncation_above (sid : string) (mid : nat) (c : string) (now : nat)
      (l : list message_row) :
  Forall (fun b => mid < m_id b) l ->
  filter (of_session sid)
         (filter (survives_truncation sid mid)
                 (map (overwrite sid mid c now) l)) = [] /\
  filter (fun m => m_id m <? mid) (filter (of_session sid) l) = [].
Proof.
  induction 1 as [|b l Hb Hl [IH1 IH2]]; simpl; [split; reflexivity|].
  assert (Hm : is_message sid mid b = false).
  { unfold is_message. destruct (Nat.eqb_spec (m_id b) mid); [lia|].
    reflexivity. }
  rewrite (overwrite_other sid mid c now b Hm).
  unfold survives_truncation at 1.
  assert (Hlt : (mid <? m_id b) = true) by (apply Nat.ltb_lt; exact Hb).
  rewrite Hlt, andb_true_r.
  destruct (of_session sid b) eqn:Hs; simpl.
  - split; [exact IH1|].
    destruct (Nat.ltb_spec (m_id b) mid); [lia | exact IH2].
  - rewrite Hs. split; assumption.
Qed.

(** The rows of the edited session afterwards: those with smaller ids, as
    they were, then the edited row. *)
Lemma truncation_own_session (sid : string) (mid : nat) (c : string)
      (now : nat) (l : list message_row) (M : message_row) :
  StronglySorted (fun a b => m_id a < m_id b) l ->
  find (is_message sid mid) l = Some M ->
  filter (of_session sid)
         (filter (survives_truncation sid mid)
                 (map (overwrite sid mid c now) l))
  = filter (fun m => m_id m <? mid) (filter (of_session sid) l)
    ++ [mk_message mid sid (m_role M) c now].
Proof.
  induction 1 as [|a l Hl IH Ha]; cbn [map filter find]; [discriminate|].
  destruct (is_message sid mid a) eqn:Hma.
  - intros [= <-].
    assert (Ea : overwrite sid mid c now a
                 = mk_message mid sid (m_role a) c now).
    { unfold overwrite. rewrite Hma.
      apply is_message_iff in Hma as [-> ->]. reflexivity. }
    apply is_message_iff in Hma as [Hid Hs]. rewrite Ea.
    assert (Hsv : survives_truncation sid mid
                    (mk_message mid sid (m_role a) c now) = true).
    { unfold survives_truncation. simpl.
      rewrite Nat.ltb_irrefl, andb_false_r. reflexivity. }
    assert (Hof : of_session sid (mk_message mid sid (m_role a) c now)
                  = true) by (apply of_session_eq; reflexivity).
    assert (Hsa : of_session sid a = true) by (apply of_session_eq; exact Hs).
    assert (Hab : Forall (fun b => mid < m_id b) l).
    { eapply Forall_impl; [|exact Ha]. intros b Hb. simpl in Hb. lia. }
    destruct (truncation_above sid mid c now l Hab) as [E1 E2].
    rewrite Hsv. cbn [filter]. rewrite Hof, Hsa, E1. cbn [filter].
    rewrite Hid, Nat.ltb_irrefl, E2. reflexivity.
  - intros Hf. rewrite (overwrite_other sid mid c now a Hma).
    specialize (IH Hf).
    apply find_some in Hf as [HinM HM]. apply is_message_iff in HM as [HidM _].
    rewrite Forall_forall in Ha. specialize (Ha M HinM). simpl in Ha.
    assert (Hlt : (m_id a <? mid) = true) by (apply Nat.ltb_lt; lia).
    assert (Hsv : survives_truncation sid mid a = true).
    { unfold survives_truncation.
      replace (mid <? m_id a) with false by (symmetry; apply Nat.ltb_ge; lia).
      rewrite andb_false_r. reflexivity. }
    rewrite Hsv. cbn [filter].
    destruct (of_session sid a) eqn:Hs; cbn [filter]; [|exact IH].
    rewrite Hlt. cbn [app]. f_equal. exact IH.
Qed.

Lemma session_messages_save_message (st : state) (sid sid' role c : string) :
  session_messages (save_message st sid role c) sid'
  = session_messages st sid'
    ++ (if String.eqb sid sid'
        then [mk_message (S (sqlite_sequence st)) sid role c (clock st)]
        else []).
Proof.
  unfold session_messages. simpl. rewrite filter_app. simpl.
  unfold of_session at 2. simpl.
  destruct (String.eqb sid sid'); reflexivity.
Qed.

Lemma touch_touch (sid : string) (t t' : nat) (s : session_row) :
  is_session sid s = true ->
  touch_session sid t' (touch_session sid t s)
  = mk_session (s_id s) (s_title s) (s_created_at s) t'.
Proof.
  intros H. unfold touch_session. rewrite H.
  unfold is_session in *. simpl. rewrite H. reflexivity.
Qed.

Lemma not_editable_false (st : state) (sid : string) (mid : nat) :
  not_editable st sid mid = false ->
  exists M, fetch_message st sid mid = Some M /\ m_role M = "user".
Proof.
  unfold not_editable.
  destruct (fetch_message st sid mid) as [M|]; [|discriminate].
  intros H. apply negb_false_iff, String.eqb_eq in H.
  exists M. split; [reflexivity | exact H].
Qed.

(** An id the store holds passes the binding of the SELECT. *)
Lemma stored_id_bindable (st : state) (m : message_row) :
  well_formed st -> In m (chat_messages st) -> unbindable st (m_id m) = false.
Proof.
  intros [_ Hb] Hin. rewrite Forall_forall in Hb.
  destruct (Hb m Hin) as [Hle _]. unfold unbindable.
  replace (sqlite_sequence st <? m_id m) with false
    by (symmetry; apply Nat.ltb_ge; exact Hle).
  reflexivity.
Qed.

Lemma fetched_id_bindable (st : state) (sid : string) (mid : nat)
      (M : message_row) :
  well_formed st -> fetch_message st sid mid = Some M ->
  unbindable st mid = false.
Proof.
  intros Hwf HM. apply find_some in HM as [Hin HM].
  apply is_message_iff in HM as [<- _].
  apply stored_id_bindable; assumption.
Qed.

Lemma edit_message_accepted
      (agent_turn : list history_row -> string -> nat * agent_outcome)
      (st : state) (sid : string) (mid : nat) (body : option string) :
  message_field body <> EmptyString ->
  unbindable st mid = false ->
  not_editable st sid mid = false ->
  edit_message agent_turn st sid mid body =
  let m := message_field body in
  let st1 := rewrite_and_truncate st sid mid m in
  match agent_turn (get_chat_history st1 sid) m with
  | (d, AgentRaises e) =>
      (JsonError 500 "Internal server error" (Some e), elapse d st1)
  | (d, AgentReply r) =>
      (Json200 (Reply r), save_message (elapse d st1) sid "assistant" r)
  end.
Proof.
  intros Hm Hu Hne. unfold edit_message. rewrite Hu, Hne.
  destruct (Py.is_empty (message_field body)) eqn:He; [|reflexivity].
  apply is_empty_iff in He. contradiction.
Qed.

(** A 200 answer means the text was not blank, the row was the user's and
    the agent replied. *)
Lemma edit_message_success_inv
      (agent_turn : list history_row -> string -> nat * agent_outcome)
      (st st' : state) (sid : string) (mid : nat) (body : option string)
      (reply : string) :
  edit_message agent_turn st sid mid body = (Json200 (Reply reply), st') ->
  message_field body <> EmptyString /\
  (exists M, fetch_message st sid mid = Some M /\ m_role M = "user") /\
  exists d,
    agent_turn (get_chat_history
                  (rewrite_and_truncate st sid mid (message_field body)) sid)
               (message_field body) = (d, AgentReply reply).
Proof.
  unfold edit_message.
  destruct (Py.is_empty (message_field body)) eqn:He; [discriminate|].
  destruct (unbindable st mid); [discriminate|].
  destruct (not_editable st sid mid) eqn:Hne; [discriminate|].
  destruct (agent_turn _ _) as [d [a|e]] eqn:Ha; [|discriminate].
  intros [= -> _]. split; [|split].
  - intros H. apply is_empty_iff in H. congruence.
  - apply not_editable_false. exact Hne.
  - exists d. reflexivity.
Qed.

(** C1. In a store the application reaches, let M be a user message of a
    session, let the new text (the request's, stripped) be non-empty and
    let the agent reply.  Then [edit_message] answers 200 with the reply,
    and afterwards the session holds its rows with smaller ids untouched,
    then M's row, same id and role, with the new text and the time of the
    edit, then one new assistant row with a fresh id carrying the reply,
    and nothing else; the history reads in that order; other sessions
    keep their rows; the session's [updated_at] is set by the edit and
    again when the reply is saved. *)
Theorem edit_message_rewrites_and_truncates
        (agent_turn : list history_row -> string -> nat * agent_outcome)
        (st : state) (sid : string) (mid : nat) (body : option string)
        (M : message_row) (d : nat) (reply : string) :
  let new_message := message_field body in
  let st1 := rewrite_and_truncate st sid mid new_message in
  let st' := snd (edit_message agent_turn st sid mid body) in
  let kept := filter (fun m => m_id m <? mid) (session_messages st sid) in
  let edited := mk_message mid sid "user" new_message (clock st) in
  let answer :=
    mk_message (S (sqlite_sequence st)) sid "assistant" reply (clock st + d) in
  reachable agent_turn st ->
  new_message <> EmptyString ->
  fetch_message st sid mid = Some M ->
  m_role M = "user" ->
  agent_turn (get_chat_history st1 sid) new_message = (d, AgentReply reply) ->
  fst (edit_message agent_turn st sid mid body) = Json200 (Reply reply) /\
  session_messages st' sid = kept ++ [edited; answer] /\
  get_chat_history st' sid = map history_of (kept ++ [edited; answer]) /\
  mid < m_id answer /\
  (forall sid', sid' <> sid ->
     session_messages st' sid' = session_messages st sid') /\
  (forall s, find_session st sid = Some s ->
     find_session st1 sid
     = Some (mk_session (s_id s) (s_title s) (s_created_at s) (clock st)) /\
     find_session st' sid
     = Some (mk_session (s_id s) (s_title s) (s_created_at s)
                        (clock st + d))).
Proof.
  intros new_message st1 st' kept edited answer Hr Hnew HM Hrole Hagent.
  pose proof (reachable_well_formed agent_turn st Hr) as Hwf.
  assert (Hwf' : well_formed st')
    by (apply well_formed_edit_message, Hwf).
  assert (Hne : not_editable st sid mid = false).
  { unfold not_editable. rewrite HM, Hrole. reflexivity. }
  assert (Hedit : edit_message agent_turn st sid mid body
                  = (Json200 (Reply reply),
                     save_message (elapse d st1) sid "assistant" reply)).
  { rewrite edit_message_accepted
      by (try assumption; exact (fetched_id_bindable st sid mid M Hwf HM)).
    cbv zeta.
    fold new_message. fold st1. rewrite Hagent. reflexivity. }
  subst st'. rewrite Hedit. cbn [fst snd].
  assert (Hids : StronglySorted (fun a b => m_id a < m_id b)
                                (chat_messages st)).
  { destruct Hwf as [Hs _]. eapply StronglySorted_weaken; [|exact Hs].
    intros x y _ _ [H _]. exact H. }
  assert (Hown : session_messages st1 sid = kept ++ [edited]).
  { unfold session_messages, st1, rewrite_and_truncate. simpl.
    rewrite (truncation_own_session sid mid new_message (clock st)
               (chat_messages st) M Hids HM).
    rewrite Hrole. reflexivity. }
  assert (Hsess : session_messages
                    (save_message (elapse d st1) sid "assistant" reply) sid
                  = kept ++ [edited; answer]).
  { rewrite session_messages_save_message, String.eqb_refl.
    change (session_messages (elapse d st1) sid)
      with (session_messages st1 sid).
    rewrite Hown, <- app_assoc. reflexivity. }
  split; [reflexivity|].
  split; [exact Hsess|].
  split.
  { rewrite well_formed_history; [f_equal; exact Hsess|].
    rewrite Hedit in Hwf'. exact Hwf'. }
  split.
  { apply fetch_message_some in HM as (Hin & Hid & _).
    destruct Hwf as [_ Hb]. rewrite Forall_forall in Hb.
    destruct (Hb M Hin) as [Hle _]. simpl. lia. }
  split.
  - intros sid' Hne'. rewrite session_messages_save_message.
    replace (String.eqb sid sid') with false
      by (symmetry; apply String.eqb_neq; congruence).
    rewrite app_nil_r. unfold session_messages. simpl.
    apply truncation_other_session. exact Hne'.
  - intros s Hs. unfold find_session in *. simpl.
    rewrite !find_session_touch, Hs. simpl.
    pose proof (find_is_session _ _ _ Hs) as His.
    split.
    + unfold touch_session. rewrite His. reflexivity.
    + rewrite touch_touch by exact His. reflexivity.
Qed.

Lemma edit_message_rewrites_and_truncates_witness :
  let r := edit_message Demo.moody_agent Demo.five_messages "a1" 2
                        (Some "  What is nuisance? ") in
  map h_id (get_chat_history Demo.five_messages "a1") = [1; 2; 3; 4; 5] /\
  fst r = Json200 (Reply "Noted: What is nuisance?") /\
  get_chat_history (snd r) "a1"
  = [ mk_history 1 "user" "What is a tort?" 1;
      mk_history 2 "user" "What is nuisance?" 13;
      mk_history 6 "assistant" "Noted: What is nuisance?" 15 ].
Proof.
  split; [reflexivity|].
  destruct (edit_message_rewrites_and_truncates
              Demo.moody_agent Demo.five_messages
              "a1" 2 (Some "  What is nuisance? ")
              (mk_message 2 "a1" "user" "Define negligence" 4)
              2 "Noted: What is nuisance?")
    as (H1 & _ & H3 & _).
  - eexists. reflexivity.
  - discriminate.
  - reflexivity.
  - reflexivity.
  - reflexivity.
  - split; [exact H1 | exact H3].
Defined.


(* ================================================================== *)
(** * Further properties of the store and the routes *)

(** ** Stripping *)

Section StripFacts.

Import Py.

Lemma rstrip_idem (s : string) : rstrip (rstrip s) = rstrip s.
Proof.
  induction s as [|c r IH]; [reflexivity|].
  cbn [rstrip]. cbv zeta.
  destruct (is_empty (rstrip r) && isspace c) eqn:H; [reflexivity|].
  cbn [rstrip]. cbv zeta. rewrite IH, H. reflexivity.
Qed.

Lemma lstrip_visible (c : ascii) (r : string) :
  isspace c = false -> lstrip (String c r) = String c r.
Proof. intros H. simpl. rewrite H. reflexivity. Qed.

Lemma rstrip_keeps_visible_head (c : ascii) (r : string) :
  isspace c = false -> rstrip (String c r) = String c (rstrip r).
Proof.
  intros H. cbn [rstrip]. cbv zeta. rewrite H, andb_false_r. reflexivity.
Qed.

(** Stripping a stripped text changes nothing. *)
Lemma strip_idem (s : string) : strip (strip s) = strip s.
Proof.
  unfold strip.
  destruct (lstrip_cases s) as [[_ Hl]|(c & r & Hl & Hc)]; rewrite Hl.
  - reflexivity.
  - rewrite (rstrip_keeps_visible_head c r Hc).
    rewrite (lstrip_visible c (rstrip r) Hc).
    rewrite <- (rstrip_keeps_visible_head c r Hc). apply rstrip_idem.
Qed.

End StripFacts.

Lemma message_field_stripped (body : option string) :
  Py.strip (message_field body) = message_field body.
Proof. unfold message_field. apply strip_idem. Qed.

(** ** What every reachable store satisfies *)

Lemma session_ok_later (t t' : nat) (s : session_row) :
  t <= t' -> session_ok t s -> session_ok t' s.
Proof. unfold session_ok. intros Ht (H1 & H2 & H3). repeat split; lia. Qed.

Lemma session_ok_touch (sid : string) (now : nat) (s : session_row) :
  session_ok now s -> session_ok now (touch_session sid now s).
Proof.
  unfold touch_session. intros (H1 & H2 & H3).
  destruct (is_session sid s); unfold session_ok; simpl; repeat split; lia.
Qed.

Lemma session_ok_retitle (sid t : string) (now : nat) (s : session_row) :
  session_ok now s -> session_ok now (retitle_session sid (display_title t) now s).
Proof.
  unfold retitle_session. intros (H1 & H2 & H3).
  destruct (is_session sid s); unfold session_ok; simpl; repeat split;
    try lia.
  apply display_title_length.
Qed.

Lemma touch_session_id (sid : string) (now : nat) (s : session_row) :
  s_id (touch_session sid now s) = s_id s.
Proof. unfold touch_session. destruct (is_session sid s); reflexivity. Qed.

Lemma retitle_session_id (sid t : string) (now : nat) (s : session_row) :
  s_id (retitle_session sid t now s) = s_id s.
Proof. unfold retitle_session. destruct (is_session sid s); reflexivity. Qed.

(** Rewriting rows without changing their ids keeps the table in order. *)
Lemma sessions_ok_map (f : session_row -> session_row) (st st' : state) :
  (forall s, s_id (f s) = s_id s) ->
  (forall s, session_ok (clock st) s -> session_ok (clock st') (f s)) ->
  chat_sessions st' = map f (chat_sessions st) ->
  sessions_ok st -> sessions_ok st'.
Proof.
  intros Hid Hok Heq [Hnd Hall]. unfold sessions_ok. rewrite Heq. split.
  - rewrite map_map.
    rewrite (map_ext (fun s => s_id (f s)) s_id Hid). exact Hnd.
  - apply Forall_map. eapply Forall_impl; [|exact Hall]. exact Hok.
Qed.

Lemma sessions_ok_elapse (d : nat) (st : state) :
  sessions_ok st -> sessions_ok (elapse d st).
Proof.
  apply sessions_ok_map with (f := fun s => s); simpl.
  - reflexivity.
  - intros s. apply session_ok_later. lia.
  - symmetry. apply map_id.
Qed.

Lemma sessions_ok_save_message (st : state) (sid role c : string) :
  sessions_ok st -> sessions_ok (save_message st sid role c).
Proof.
  apply sessions_ok_map with (f := touch_session sid (clock st)); simpl.
  - intros s. apply touch_session_id.
  - intros s. apply session_ok_touch.
  - reflexivity.
Qed.

Lemma sessions_ok_update_title (st : state) (sid t : string) :
  sessions_ok st -> sessions_ok (update_session_title st sid t).
Proof.
  apply sessions_ok_map
    with (f := retitle_session sid (display_title t) (clock st)); simpl.
  - intros s. apply retitle_session_id.
  - intros s. apply session_ok_retitle.
  - reflexivity.
Qed.

Lemma sessions_ok_truncate (st : state) (sid : string) (mid : nat)
      (c : string) :
  sessions_ok st -> sessions_ok (rewrite_and_truncate st sid mid c).
Proof.
  apply sessions_ok_map with (f := touch_session sid (clock st)); simpl.
  - intros s. apply touch_session_id.
  - intros s. apply session_ok_touch.
  - reflexivity.
Qed.

Lemma NoDup_map_filter {A B : Type} (g : A -> B) (p : A -> bool)
      (l : list A) :
  NoDup (map g l) -> NoDup (map g (filter p l)).
Proof.
  induction l as [|a l IH]; simpl; [auto|].
  intros H. inversion H as [|? ? Hnin Hnd]; subst.
  destruct (p a); simpl; [|auto].
  constructor; [|auto].
  intros Hin. apply Hnin. apply in_map_iff in Hin as (x & Hx & Hin).
  apply filter_In in Hin as [Hin _]. apply in_map_iff. exists x. auto.
Qed.

Lemma sessions_ok_delete (st : state) (sid : string) :
  sessions_ok st -> sessions_ok (snd (delete_session st sid)).
Proof.
  intros [Hnd Hall]. split; simpl.
  - apply NoDup_map_filter. exact Hnd.
  - apply Forall_forall. intros s Hin. apply filter_In in Hin as [Hin _].
    rewrite Forall_forall in Hall. auto.
Qed.

Lemma existsb_is_session_false (uuid : string) (l : list session_row) :
  existsb (is_session uuid) l = false -> ~ In uuid (map s_id l).
Proof.
  intros H Hin. apply in_map_iff in Hin as (s & Hs & Hin).
  assert (existsb (is_session uuid) l = true).
  { apply existsb_exists. exists s. split; [exact Hin|].
    unfold is_session. apply String.eqb_eq. exact Hs. }
  congruence.
Qed.

Lemma sessions_ok_new_session (st : state) (uuid : string) :
  sessions_ok st -> sessions_ok (snd (new_session st uuid)).
Proof.
  intros [Hnd Hall]. unfold new_session, create_new_session.
  destruct (existsb (is_session uuid) (chat_sessions st)) eqn:He; simpl;
    [split; assumption|].
  split; simpl.
  - rewrite map_app. simpl. apply NoDup_app_remove_l with (l := []).
    simpl. apply Permutation_NoDup with (l := uuid :: map s_id (chat_sessions st)).
    + apply Permutation_cons_append.
    + constructor; [apply existsb_is_session_false; exact He | exact Hnd].
  - apply Forall_app. split; [exact Hall|].
    repeat constructor; simpl; lia.
Qed.

Lemma message_ok_user (sid : string) (id now : nat) (body : option string) :
  message_field body <> EmptyString ->
  message_ok (mk_message id sid "user" (message_field body) now).
Proof.
  intros H. right. simpl. split; [reflexivity|]. split; [exact H|].
  apply message_field_stripped.
Qed.

Lemma messages_ok_save (st : state) (sid role c : string) :
  message_ok (mk_message (S (sqlite_sequence st)) sid role c (clock st)) ->
  Forall message_ok (chat_messages st) ->
  Forall message_ok (chat_messages (save_message st sid role c)).
Proof.
  intros Hm H. simpl. apply Forall_app. split; [exact H|].
  constructor; [exact Hm | constructor].
Qed.

Lemma messages_ok_truncate (st : state) (sid : string) (mid : nat)
      (body : option string) :
  message_field body <> EmptyString ->
  Forall message_ok (chat_messages st) ->
  Forall message_ok
         (chat_messages (rewrite_and_truncate st sid mid (message_field body))).
Proof.
  intros Hb H. simpl. apply Forall_forall. intros y Hy.
  apply filter_In in Hy as [Hy _].
  apply in_map_iff in Hy as (m & <- & Hm).
  rewrite Forall_forall in H. specialize (H m Hm).
  unfold overwrite. destruct (is_message sid mid m); [|exact H].
  destruct H as [Ha|(Hu & _)].
  - left. exact Ha.
  - right. simpl. split; [exact Hu|]. split; [exact Hb|].
    apply message_field_stripped.
Qed.

Section StoreOk.

Variable agent_turn : list history_row -> string -> nat * agent_outcome.

Lemma store_ok_init : store_ok init_db.
Proof. repeat split; constructor. Qed.

Lemma store_ok_send_message (st : state) (sid : string)
      (body : option string) :
  store_ok st -> store_ok (snd (send_message agent_turn st sid body)).
Proof.
  intros [Hs Hm]. unfold send_message.
  destruct (Py.is_empty (message_field body)) eqn:He; [split; assumption|].
  assert (Hb : message_field body <> EmptyString).
  { intros H. apply is_empty_iff in H. congruence. }
  set (st1 := if length (get_chat_history st sid) =? 0
              then update_session_title st sid (message_field body)
              else st).
  assert (H1 : store_ok st1).
  { subst st1. destruct (length (get_chat_history st sid) =? 0);
      [|split; assumption].
    split; [apply sessions_ok_update_title; exact Hs | exact Hm]. }
  destruct H1 as [Hs1 Hm1].
  assert (H2 : store_ok (save_message st1 sid "user" (message_field body))).
  { split; [apply sessions_ok_save_message; exact Hs1|].
    apply messages_ok_save; [apply message_ok_user; exact Hb | exact Hm1]. }
  destruct H2 as [Hs2 Hm2].
  destruct (agent_turn _ _) as [d [r|e]]; cbn [snd].
  - split.
    + apply sessions_ok_save_message, sessions_ok_elapse, Hs2.
    + apply messages_ok_save; [left; reflexivity | exact Hm2].
  - split; [apply sessions_ok_elapse, Hs2 | exact Hm2].
Qed.

Lemma store_ok_edit_message (st : state) (sid : string) (mid : nat)
      (body : option string) :
  store_ok st -> store_ok (snd (edit_message agent_turn st sid mid body)).
Proof.
  intros [Hs Hm]. unfold edit_message.
  destruct (Py.is_empty (message_field body)) eqn:He; [split; assumption|].
  assert (Hb : message_field body <> EmptyString).
  { intros H. apply is_empty_iff in H. congruence. }
  destruct (unbindable st mid); [split; assumption|].
  destruct (not_editable st sid mid); [split; assumption|].
  pose proof (sessions_ok_truncate st sid mid (message_field body) Hs) as Hs1.
  pose proof (messages_ok_truncate st sid mid body Hb Hm) as Hm1.
  destruct (agent_turn _ _) as [d [r|e]]; cbn [snd].
  - split.
    + apply sessions_ok_save_message, sessions_ok_elapse, Hs1.
    + apply messages_ok_save; [left; reflexivity | exact Hm1].
  - split; [apply sessions_ok_elapse, Hs1 | exact Hm1].
Qed.

Lemma store_ok_step (st : state) (e : event) :
  store_ok st -> store_ok (step agent_turn st e).
Proof.
  intros H. destruct e; unfold step; try exact H.
  - destruct H as [Hs Hm]. split; [apply sessions_ok_new_session, Hs|].
    unfold new_session, create_new_session.
    destruct (existsb _ _); exact Hm.
  - apply store_ok_send_message, H.
  - destruct H as [Hs Hm]. split; [apply sessions_ok_delete, Hs|].
    simpl. apply Forall_forall. intros m Hin.
    apply filter_In in Hin as [Hin _]. rewrite Forall_forall in Hm. auto.
  - apply store_ok_edit_message, H.
  - destruct H as [Hs Hm]. split; [apply sessions_ok_elapse, Hs | exact Hm].
Qed.

Lemma store_ok_run (es : list event) (st : state) :
  store_ok st -> store_ok (run agent_turn st es).
Proof.
  revert st. induction es as [|e es IH]; simpl; intros st H; [exact H|].
  apply IH, store_ok_step, H.
Qed.

Lemma reachable_store_ok (st : state) :
  reachable agent_turn st -> store_ok st.
Proof. intros [es ->]. apply store_ok_run, store_ok_init. Qed.

End StoreOk.

(** X1. In every store the application reaches no two session rows share
    an id. *)
Theorem session_ids_unique
        (agent_turn : list history_row -> string -> nat * agent_outcome)
        (st : state) :
  reachable agent_turn st -> NoDup (map s_id (chat_sessions st)).
Proof. intros H. apply reachable_store_ok in H as [[Hnd _] _]. exact Hnd. Qed.

Lemma session_ids_unique_witness :
  NoDup (map s_id (chat_sessions Samples.two_sessions)).
Proof.
  apply (session_ids_unique Demo.quick_agent). eexists. reflexivity.
Defined.

(** X2. In every store the application reaches each stored title has at
    most 53 characters. *)
Theorem stored_titles_bounded
        (agent_turn : list history_row -> string -> nat * agent_outcome)
        (st : state) (s : session_row) :
  reachable agent_turn st -> In s (chat_sessions st) ->
  String.length (s_title s) <= 53.
Proof.
  intros H Hin. apply reachable_store_ok in H as [[_ Hall] _].
  rewrite Forall_forall in Hall. destruct (Hall s Hin) as (_ & _ & Ht).
  exact Ht.
Qed.

Lemma stored_titles_bounded_witness :
  String.length "What is adverse possession?" <= 53.
Proof.
  apply (stored_titles_bounded Demo.quick_agent Samples.two_sessions
           (mk_session "s1" "What is adverse possession?" 0 9)).
  - eexists. reflexivity.
  - vm_compute. left. reflexivity.
Defined.

(** X3. In every store the application reaches a session was created no
    later than it was last updated, and was not updated in the future. *)
Theorem session_times_ordered
        (agent_turn : list history_row -> string -> nat * agent_outcome)
        (st : state) (s : session_row) :
  reachable agent_turn st -> In s (chat_sessions st) ->
  s_created_at s <= s_updated_at s /\ s_updated_at s <= clock st.
Proof.
  intros H Hin. apply reachable_store_ok in H as [[_ Hall] _].
  rewrite Forall_forall in Hall. destruct (Hall s Hin) as (H1 & H2 & _).
  split; assumption.
Qed.

Lemma session_times_ordered_witness :
  2 <= 5 /\ 5 <= clock Samples.two_sessions.
Proof.
  apply (session_times_ordered Demo.quick_agent Samples.two_sessions
           (mk_session "s2" "Is a will valid without witnesses?" 2 5)).
  - eexists. reflexivity.
  - vm_compute. right. left. reflexivity.
Defined.

(** X4. In every store the application reaches each message is the
    assistant's or the user's, and a user message is never empty and has no
    whitespace at either end. *)
Theorem stored_messages_well_formed
        (agent_turn : list history_row -> string -> nat * agent_outcome)
        (st : state) (m : message_row) :
  reachable agent_turn st -> In m (chat_messages st) ->
  (m_role m = "assistant" \/ m_role m = "user") /\
  (m_role m = "user" ->
   m_content m <> EmptyString /\ Py.strip (m_content m) = m_content m).
Proof.
  intros H Hin. apply reachable_store_ok in H as [_ Hall].
  rewrite Forall_forall in Hall.
  destruct (Hall m Hin) as [Ha|(Hu & Hne & Hs)].
  - split; [left; exact Ha|]. intros Hu. rewrite Ha in Hu. discriminate.
  - split; [right; exact Hu|]. intros _. split; assumption.
Qed.

Lemma stored_messages_well_formed_witness :
  exists m, In m (chat_messages Demo.five_messages) /\ m_id m = 4 /\
            m_role m = "user" /\ Py.strip (m_content m) = m_content m.
Proof.
  exists (mk_message 4 "a1" "user" "And strict liability?" 11).
  assert (Hin : In (mk_message 4 "a1" "user" "And strict liability?" 11)
                   (chat_messages Demo.five_messages))
    by (vm_compute; do 3 right; left; reflexivity).
  destruct (stored_messages_well_formed Demo.moody_agent Demo.five_messages
              _ (ex_intro _ _ eq_refl) Hin) as [_ H].
  split; [exact Hin|]. split; [reflexivity|]. split; [reflexivity|].
  apply H. reflexivity.
Defined.

(** ** Ids are never given twice *)

Lemma ids_not_reused_refl (st : state) : ids_not_reused st st.
Proof.
  split; [lia|]. intros m Hin _. exists m. repeat split; assumption.
Qed.

Lemma ids_not_reused_trans (a b c : state) :
  ids_not_reused a b -> ids_not_reused b c -> ids_not_reused a c.
Proof.
  intros [Hab Hb] [Hbc Hc]. split; [lia|].
  intros m Hin Hle.
  destruct (Hc m Hin) as (m1 & Hin1 & E1 & E2 & E3); [lia|].
  destruct (Hb m1 Hin1) as (m0 & Hin0 & F1 & F2 & F3); [lia|].
  exists m0. split; [exact Hin0|]. unfold same_row. repeat split; congruence.
Qed.

(** The table lost rows or kept them, the counter did not go back. *)
Lemma ids_not_reused_subset (st st' : state) :
  sqlite_sequence st <= sqlite_sequence st' ->
  (forall m, In m (chat_messages st') ->
             exists m0, In m0 (chat_messages st) /\ same_row m0 m) ->
  ids_not_reused st st'.
Proof. intros Hq H. split; [exact Hq|]. intros m Hin _. auto. Qed.

Lemma same_row_refl (m : message_row) : same_row m m.
Proof. repeat split. Qed.

Lemma ids_not_reused_save (st : state) (sid role c : string) :
  ids_not_reused st (save_message st sid role c).
Proof.
  split; simpl; [lia|]. intros m Hin Hle.
  apply in_app_or in Hin as [Hin|Hin].
  - exists m. split; [exact Hin | apply same_row_refl].
  - simpl in Hin. destruct Hin as [<-|[]]. simpl in Hle. lia.
Qed.

Lemma ids_not_reused_truncate (st : state) (sid : string) (mid : nat)
      (c : string) :
  ids_not_reused st (rewrite_and_truncate st sid mid c).
Proof.
  apply ids_not_reused_subset; simpl; [lia|].
  intros y Hy. apply filter_In in Hy as [Hy _].
  apply in_map_iff in Hy as (m & <- & Hm).
  exists m. split; [exact Hm|]. unfold same_row, overwrite.
  destruct (is_message sid mid m); repeat split.
Qed.

Lemma ids_not_reused_same_rows (st st' : state) :
  chat_messages st' = chat_messages st ->
  sqlite_sequence st' = sqlite_sequence st ->
  ids_not_reused st st'.
Proof.
  intros Hm Hq. apply ids_not_reused_subset; [lia|].
  rewrite Hm. intros m Hin. exists m. split; [exact Hin|].
  apply same_row_refl.
Qed.

Section IdsNotReused.

Variable agent_turn : list history_row -> string -> nat * agent_outcome.

Lemma ids_not_reused_step (st : state) (e : event) :
  ids_not_reused st (step agent_turn st e).
Proof.
  destruct e; unfold step; try apply ids_not_reused_refl.
  - unfold new_session, create_new_session.
    destruct (existsb _ _); cbn [snd];
      [apply ids_not_reused_refl
      | apply ids_not_reused_same_rows; reflexivity].
  - unfold send_message.
    destruct (Py.is_empty (message_field body));
      [apply ids_not_reused_refl|].
    set (st1 := if length (get_chat_history st sid) =? 0
                then update_session_title st sid (message_field body)
                else st).
    assert (H1 : ids_not_reused st st1).
    { subst st1. destruct (length (get_chat_history st sid) =? 0);
        [apply ids_not_reused_same_rows; reflexivity
        | apply ids_not_reused_refl]. }
    pose proof (ids_not_reused_trans _ _ _ H1
                  (ids_not_reused_save st1 sid "user" (message_field body)))
      as H2.
    destruct (agent_turn _ _) as [d [r|e]]; cbn [snd].
    + eapply ids_not_reused_trans; [exact H2|].
      eapply ids_not_reused_trans;
        [|apply ids_not_reused_save].
      apply ids_not_reused_same_rows; reflexivity.
    + eapply ids_not_reused_trans; [exact H2|].
      apply ids_not_reused_same_rows; reflexivity.
  - apply ids_not_reused_subset; simpl; [lia|].
    intros m Hin. apply filter_In in Hin as [Hin _].
    exists m. split; [exact Hin | apply same_row_refl].
  - unfold edit_message.
    destruct (Py.is_empty (message_field body));
      [apply ids_not_reused_refl|].
    destruct (unbindable st mid); [apply ids_not_reused_refl|].
    destruct (not_editable st sid mid); [apply ids_not_reused_refl|].
    pose proof (ids_not_reused_truncate st sid mid (message_field body))
      as H1.
    destruct (agent_turn _ _) as [d [r|e]]; cbn [snd].
    + eapply ids_not_reused_trans; [exact H1|].
      eapply ids_not_reused_trans;
        [|apply ids_not_reused_save].
      apply ids_not_reused_same_rows; reflexivity.
    + eapply ids_not_reused_trans; [exact H1|].
      apply ids_not_reused_same_rows; reflexivity.
  - apply ids_not_reused_same_rows; reflexivity.
Qed.

Lemma ids_not_reused_run (es : list event) (st : state) :
  ids_not_reused st (run agent_turn st es).
Proof.
  revert st. induction es as [|e es IH]; intros st; simpl.
  - apply ids_not_reused_refl.
  - eapply ids_not_reused_trans; [apply ids_not_reused_step | apply IH].
Qed.

End IdsNotReused.

(** X5. Whatever happens to a store, the id counter of [chat_messages]
    does not go back and no id is given a second time: a row found later
    under an id the counter had already reached is a row the store held
    then, same session and role; so a new message always gets an id above
    every id ever used, also after deletions. *)
Theorem message_ids_never_reused
        (agent_turn : list history_row -> string -> nat * agent_outcome)
        (st : state) (es : list event) :
  let st' := run agent_turn st es in
  sqlite_sequence st <= sqlite_sequence st' /\
  (forall m, In m (chat_messages st') -> m_id m <= sqlite_sequence st ->
             exists m0, In m0 (chat_messages st) /\ same_row m0 m) /\
  (forall m, In m (chat_messages st') ->
             (forall m0, In m0 (chat_messages st) -> m_id m0 <> m_id m) ->
             sqlite_sequence st < m_id m).
Proof.
  intros st'. destruct (ids_not_reused_run agent_turn es st) as [Hq Hold].
  split; [exact Hq|]. split; [exact Hold|].
  intros m Hin Hnew.
  destruct (Nat.le_gt_cases (m_id m) (sqlite_sequence st)) as [Hle|Hgt];
    [|exact Hgt].
  destruct (Hold m Hin Hle) as (m0 & Hin0 & Hid & _).
  exfalso. exact (Hnew m0 Hin0 Hid).
Qed.

Lemma message_ids_never_reused_witness :
  let st' := run Demo.quick_agent Demo.five_messages
                 [ DeleteSession "a1"; NewSession "b2";
                   SendMessage "b2" (Some "Is bail a right?") ] in
  map m_id (chat_messages st') = [6; 7] /\
  sqlite_sequence Demo.five_messages < 6.
Proof.
  split; [reflexivity|].
  apply (proj2 (proj2 (message_ids_never_reused Demo.quick_agent
                         Demo.five_messages
                         [ DeleteSession "a1"; NewSession "b2";
                           SendMessage "b2" (Some "Is bail a right?") ]))
               (mk_message 6 "b2" "user" "Is bail a right?" 13)).
  - vm_compute. left. reflexivity.
  - intros m0 Hin. vm_compute in Hin.
    repeat (destruct Hin as [<-|Hin]; [discriminate|]). contradiction.
Defined.

(** ** Listing and creating sessions *)

Lemma insert_by_updated_desc_perm (s : session_row) (l : list session_row) :
  Permutation (s :: l) (insert_by_updated_desc s l).
Proof.
  induction l as [|x r IH]; simpl; [apply Permutation_refl|].
  destruct (s_updated_at x <=? s_updated_at s); [apply Permutation_refl|].
  eapply perm_trans; [apply perm_swap | apply perm_skip, IH].
Qed.

Lemma order_by_updated_desc_perm (l : list session_row) :
  Permutation l (order_by_updated_desc l).
Proof.
  induction l as [|s r IH]; simpl; [constructor|].
  eapply perm_trans; [apply perm_skip, IH | apply insert_by_updated_desc_perm].
Qed.

Lemma insert_by_updated_desc_sorted (s : session_row) (l : list session_row) :
  StronglySorted listed_before l ->
  StronglySorted listed_before (insert_by_updated_desc s l).
Proof.
  induction 1 as [|x r Hr IH Hx]; simpl; [repeat constructor|].
  destruct (Nat.leb_spec (s_updated_at x) (s_updated_at s)) as [Hle|Hgt].
  - constructor; [constructor; assumption|].
    constructor; [exact Hle|].
    eapply Forall_impl; [|exact Hx].
    unfold listed_before. intros y Hy. lia.
  - constructor; [exact IH|].
    eapply Permutation_Forall; [apply insert_by_updated_desc_perm|].
    constructor; [unfold listed_before; lia | exact Hx].
Qed.

Lemma order_by_updated_desc_sorted (l : list session_row) :
  StronglySorted listed_before (order_by_updated_desc l).
Proof.
  induction l as [|s r IH]; simpl; [constructor|].
  apply insert_by_updated_desc_sorted, IH.
Qed.

(** X6. [get_chat_sessions] returns every session row exactly once, a
    later [updated_at] before an earlier one. *)
Theorem get_chat_sessions_sorted (st : state) :
  Permutation (chat_sessions st) (get_chat_sessions st) /\
  StronglySorted listed_before (get_chat_sessions st).
Proof.
  split; [apply order_by_updated_desc_perm | apply order_by_updated_desc_sorted].
Qed.

Lemma find_app_fresh (sid : string) (l : list session_row) (s : session_row) :
  existsb (is_session sid) l = false ->
  find (is_session sid) (l ++ [s])
  = if is_session sid s then Some s else None.
Proof.
  induction l as [|x r IH]; simpl; [reflexivity|].
  destruct (is_session sid x); simpl; [discriminate | exact IH].
Qed.

Lemma find_app_other (sid : string) (l : list session_row) (s : session_row) :
  is_session sid s = false ->
  find (is_session sid) (l ++ [s]) = find (is_session sid) l.
Proof.
  intros Hs. induction l as [|x r IH]; simpl; [rewrite Hs; reflexivity|].
  destruct (is_session sid x); [reflexivity | exact IH].
Qed.

(** X7. [new_session] with an id not yet in the table answers with that
    id and adds one row for it: placeholder title, created and updated
    now; the row is in the listing; messages and the other sessions are as
    before.  With an id already in the table the INSERT is refused and the
    store is unchanged. *)
Theorem new_session_creates (st : state) (uuid : string) :
  (session_exists st uuid = false ->
   let row := mk_session uuid "New Legal Consultation" (clock st) (clock st) in
   let st' := snd (new_session st uuid) in
   fst (new_session st uuid) = Json200 (SessionCreated uuid) /\
   find_session st' uuid = Some row /\
   In row (get_chat_sessions st') /\
   chat_sessions st' = chat_sessions st ++ [row] /\
   chat_messages st' = chat_messages st /\
   (forall sid, sid <> uuid -> find_session st' sid = find_session st sid)) /\
  (session_exists st uuid = true ->
   new_session st uuid = (JsonError 500 "Internal Server Error" None, st)).
Proof.
  split; intros He;
    [|unfold session_exists in He;
      unfold new_session, create_new_session; rewrite He; reflexivity].
  intros row st'. subst st'. unfold session_exists in He.
  unfold new_session, create_new_session. rewrite He. cbn [fst snd].
  fold row.
  split; [reflexivity|]. split.
  { unfold find_session. simpl. rewrite (find_app_fresh _ _ _ He).
    unfold is_session. simpl. rewrite String.eqb_refl. reflexivity. }
  split.
  { eapply Permutation_in; [apply order_by_updated_desc_perm|].
    simpl. apply in_or_app. right. left. reflexivity. }
  split; [reflexivity|]. split; [reflexivity|].
  intros sid Hne. unfold find_session. simpl. apply find_app_other.
  unfold is_session. simpl. apply String.eqb_neq. congruence.
Qed.

Lemma new_session_creates_witness :
  find_session (snd (new_session Demo.five_messages "b2")) "b2"
  = Some (mk_session "b2" "New Legal Consultation" 13 13) /\
  new_session Demo.five_messages "a1"
  = (JsonError 500 "Internal Server Error" None, Demo.five_messages).
Proof.
  assert (H1 : session_exists Demo.five_messages "b2" = false)
    by (vm_compute; reflexivity).
  assert (H2 : session_exists Demo.five_messages "a1" = true)
    by (vm_compute; reflexivity).
  pose proof (proj1 (new_session_creates Demo.five_messages "b2") H1) as Ha.
  cbv zeta in Ha. destruct Ha as (_ & Ha & _).
  pose proof (proj2 (new_session_creates Demo.five_messages "a1") H2) as Hb.
  split; [vm_compute in Ha |- *; exact Ha | exact Hb].
Defined.

Lemma map_no_match (f : session_row -> session_row) (sid : string)
      (l : list session_row) :
  (forall s, is_session sid s = false -> f s = s) ->
  existsb (is_session sid) l = false -> map f l = l.
Proof.
  intros Hf. induction l as [|x r IH]; simpl; [reflexivity|].
  intros H. apply orb_false_iff in H as [Hx Hr].
  rewrite (Hf x Hx), (IH Hr). reflexivity.
Qed.

(** X8. For an id that names no session the two UPDATEs match no row:
    [update_session_title] leaves the store as it is, and [save_message]
    only adds its message row. *)
Theorem updates_skip_unknown_session (st : state) (sid t role c : string) :
  session_exists st sid = false ->
  update_session_title st sid t = st /\
  chat_sessions (save_message st sid role c) = chat_sessions st.
Proof.
  unfold session_exists. intros H. split.
  - unfold update_session_title, with_sessions.
    rewrite (map_no_match _ sid _) by
      (try exact H; intros s Hs; unfold retitle_session; rewrite Hs;
       reflexivity).
    destruct st; reflexivity.
  - simpl. apply map_no_match with (sid := sid); [|exact H].
    intros s Hs. unfold touch_session. rewrite Hs. reflexivity.
Qed.

Lemma updates_skip_unknown_session_witness :
  update_session_title Demo.five_messages "zz" "Torts" = Demo.five_messages /\
  chat_sessions (save_message Demo.five_messages "zz" "user" "hi")
  = chat_sessions Demo.five_messages.
Proof.
  apply updates_skip_unknown_session. reflexivity.
Defined.

(** ** The session written to is listed first *)

Lemma session_exists_find (st : state) (sid : string) :
  session_exists st sid = true -> exists s, find_session st sid = Some s.
Proof.
  unfold session_exists, find_session. intros H.
  destruct (find (is_session sid) (chat_sessions st)) as [s|] eqn:Hf;
    [eauto|].
  apply existsb_exists in H as (s & Hin & Hs).
  apply (find_none _ _ Hf) in Hin. congruence.
Qed.

(** After [save_message] on an existing session that session carries the
    latest [updated_at] of the table. *)
Lemma saved_session_is_latest (st : state) (sid role c : string) :
  sessions_ok st -> session_exists st sid = true ->
  exists s,
    find_session (save_message st sid role c) sid = Some s /\
    s_updated_at s = clock st /\
    Forall (fun x => s_updated_at x <= s_updated_at s)
           (chat_sessions (save_message st sid role c)).
Proof.
  intros Hok Hex.
  destruct (session_exists_find st sid Hex) as [s0 Hs0].
  exists (touch_session sid (clock st) s0).
  assert (Hup : s_updated_at (touch_session sid (clock st) s0) = clock st).
  { unfold touch_session. unfold find_session in Hs0.
    rewrite (find_is_session _ _ _ Hs0). reflexivity. }
  split; [|split; [exact Hup|]].
  - unfold find_session in *. simpl. rewrite find_session_touch, Hs0.
    reflexivity.
  - rewrite Hup.
    destruct (sessions_ok_save_message st sid role c Hok) as [_ Hall].
    eapply Forall_impl; [|exact Hall].
    intros x (_ & H & _). exact H.
Qed.

Lemma listing_head (l : list session_row) (s : session_row) :
  In s l ->
  Forall (fun x => s_updated_at x <= s_updated_at s) l ->
  exists first rest,
    order_by_updated_desc l = first :: rest /\
    s_updated_at first = s_updated_at s.
Proof.
  intros Hin Hall.
  pose proof (order_by_updated_desc_perm l) as Hp.
  pose proof (order_by_updated_desc_sorted l) as Hs.
  destruct (order_by_updated_desc l) as [|first rest].
  - apply Permutation_sym, Permutation_nil in Hp. subst l. contradiction.
  - exists first, rest. split; [reflexivity|].
    assert (Hle : s_updated_at first <= s_updated_at s).
    { rewrite Forall_forall in Hall. apply Hall.
      eapply Permutation_in; [apply Permutation_sym, Hp | left; reflexivity]. }
    assert (Hge : s_updated_at s <= s_updated_at first).
    { apply (Permutation_in _ Hp) in Hin. destruct Hin as [<-|Hin]; [lia|].
      inversion Hs as [|? ? _ Hf]; subst.
      rewrite Forall_forall in Hf. exact (Hf s Hin). }
    lia.
Qed.

(** X9. After a message with text is sent to an existing session of a
    reachable store, whether or not the agent answers, no session is listed
    ahead of it with a later [updated_at]: the first row of the listing
    carries that session's [updated_at]. *)
Theorem send_message_lists_session_first
        (agent_turn : list history_row -> string -> nat * agent_outcome)
        (st : state) (sid : string) (body : option string) :
  reachable agent_turn st ->
  session_exists st sid = true ->
  message_field body <> EmptyString ->
  let st' := snd (send_message agent_turn st sid body) in
  exists first rest s,
    get_chat_sessions st' = first :: rest /\
    find_session st' sid = Some s /\
    s_updated_at first = s_updated_at s /\
    clock st <= s_updated_at s.
Proof.
  intros Hr Hex Hm st'. subst st'.
  apply reachable_store_ok in Hr as [Hok _].
  rewrite send_message_accepted by exact Hm. cbv zeta.
  set (st1 := if length (get_chat_history st sid) =? 0
              then update_session_title st sid (message_field body)
              else st).
  assert (H1 : sessions_ok st1 /\ session_exists st1 sid = true
               /\ clock st1 = clock st).
  { subst st1. destruct (length (get_chat_history st sid) =? 0);
      [|split; [exact Hok | split; [exact Hex | reflexivity]]].
    split; [apply sessions_ok_update_title; exact Hok|].
    split; [rewrite session_exists_update_title; exact Hex | reflexivity]. }
  destruct H1 as (Hok1 & Hex1 & Hc1).
  set (st2 := save_message st1 sid "user" (message_field body)).
  assert (Hfinish : forall stf s,
             find_session stf sid = Some s ->
             Forall (fun x => s_updated_at x <= s_updated_at s)
                    (chat_sessions stf) ->
             clock st <= s_updated_at s ->
             exists first rest s,
               get_chat_sessions stf = first :: rest /\
               find_session stf sid = Some s /\
               s_updated_at first = s_updated_at s /\
               clock st <= s_updated_at s).
  { intros stf s Hf Hall Hc.
    assert (Hin : In s (chat_sessions stf))
      by (apply find_some in Hf; tauto).
    destruct (listing_head _ s Hin Hall) as (first & rest & Hl & Hu).
    exists first, rest, s. repeat split; assumption. }
  destruct (agent_turn _ _) as [d [r|e]]; cbn [snd].
  - assert (Hok2 : sessions_ok (elapse d st2))
      by (apply sessions_ok_elapse, sessions_ok_save_message, Hok1).
    assert (Hex2 : session_exists (elapse d st2) sid = true).
    { change (session_exists st2 sid = true). subst st2.
      rewrite session_exists_save_message. exact Hex1. }
    destruct (saved_session_is_latest (elapse d st2) sid "assistant" r
                Hok2 Hex2) as (s & Hf & Hu & Hall).
    apply (Hfinish _ s Hf Hall). rewrite Hu. simpl. lia.
  - destruct (saved_session_is_latest st1 sid "user" (message_field body)
                Hok1 Hex1) as (s & Hf & Hu & Hall).
    apply (Hfinish (elapse d st2) s Hf Hall). rewrite Hu. lia.
Qed.

Lemma send_message_lists_session_first_witness :
  exists first rest s,
    get_chat_sessions
      (snd (send_message Demo.quick_agent Samples.two_sessions "s2"
                         (Some "And a codicil?"))) = first :: rest /\
    find_session
      (snd (send_message Demo.quick_agent Samples.two_sessions "s2"
                         (Some "And a codicil?"))) "s2" = Some s /\
    s_updated_at first = s_updated_at s /\
    clock Samples.two_sessions <= s_updated_at s.
Proof.
  apply (send_message_lists_session_first Demo.quick_agent
           Samples.two_sessions "s2" (Some "And a codicil?")).
  - unfold Samples.two_sessions.
    exists [ NewSession "s1"; Elapse 2; NewSession "s2"; Elapse 3;
             SendMessage "s2" (Some "Is a will valid without witnesses?");
             Elapse 4;
             SendMessage "s1" (Some "What is adverse possession?") ].
    reflexivity.
  - reflexivity.
  - discriminate.
Defined.

(** ** Sending: what is written *)

(** X10. In a reachable store, a message with text that the agent answers
    adds exactly two rows at the end of the table, the user's and then the
    assistant's, with the next two ids; the history of the session grows by
    these two, in this order.  The agent was shown the history as it was
    before the user's message. *)
Theorem send_message_appends_turn
        (agent_turn : list history_row -> string -> nat * agent_outcome)
        (st : state) (sid : string) (body : option string)
        (d : nat) (reply : string) :
  let m := message_field body in
  let st' := snd (send_message agent_turn st sid body) in
  let asked := mk_message (S (sqlite_sequence st)) sid "user" m (clock st) in
  let answer := mk_message (S (S (sqlite_sequence st))) sid "assistant" reply
                           (clock st + d) in
  reachable agent_turn st ->
  m <> EmptyString ->
  agent_turn (get_chat_history st sid) m = (d, AgentReply reply) ->
  fst (send_message agent_turn st sid body) = Json200 (Reply reply) /\
  chat_messages st' = chat_messages st ++ [asked; answer] /\
  get_chat_history st' sid
  = get_chat_history st sid ++ [history_of asked; history_of answer] /\
  sqlite_sequence st' = sqlite_sequence st + 2 /\
  clock st' = clock st + d.
Proof.
  intros m st' asked answer Hr Hm Ha.
  pose proof (reachable_well_formed agent_turn st Hr) as Hwf.
  assert (Hwf' : well_formed st') by (apply well_formed_send_message, Hwf).
  assert (Hrows : chat_messages st' = chat_messages st ++ [asked; answer]
                  /\ fst (send_message agent_turn st sid body)
                     = Json200 (Reply reply)
                  /\ sqlite_sequence st' = sqlite_sequence st + 2
                  /\ clock st' = clock st + d).
  { subst st'. rewrite send_message_accepted by exact Hm. cbv zeta.
    fold m. rewrite Ha. cbn [fst snd].
    destruct (length (get_chat_history st sid) =? 0); simpl;
      rewrite <- app_assoc; repeat split; lia. }
  destruct Hrows as (Hrows & Hfst & Hseq & Hclock).
  split; [exact Hfst|]. split; [exact Hrows|].
  split; [|split; assumption].
  rewrite (well_formed_history st' sid Hwf').
  rewrite (well_formed_history st sid Hwf).
  unfold session_messages. rewrite Hrows, filter_app, map_app.
  f_equal. cbn [filter]. unfold of_session. simpl.
  rewrite String.eqb_refl. reflexivity.
Qed.

Lemma send_message_appends_turn_witness :
  map h_id (get_chat_history
              (snd (send_message Demo.moody_agent Demo.five_messages "a1"
                                 (Some "Thanks"))) "a1")
  = [1; 2; 3; 4; 5; 6; 7].
Proof.
  assert (Hr : reachable Demo.moody_agent Demo.five_messages)
    by (eexists; reflexivity).
  assert (Hm : message_field (Some "Thanks") <> EmptyString)
    by (vm_compute; discriminate).
  assert (Ha : Demo.moody_agent (get_chat_history Demo.five_messages "a1")
                                (message_field (Some "Thanks"))
               = (2, AgentReply "Noted: Thanks"))
    by (vm_compute; reflexivity).
  pose proof (send_message_appends_turn Demo.moody_agent Demo.five_messages
                "a1" (Some "Thanks") 2 "Noted: Thanks" Hr Hm Ha) as H.
  destruct H as (_ & _ & H & _). rewrite H. vm_compute. reflexivity.
Defined.

(** X11. [send_message] never changes or removes a stored message: the
    table afterwards is the table before followed by at most two new rows,
    each of the addressed session and each with an id above the counter. *)
Theorem send_message_only_appends
        (agent_turn : list history_row -> string -> nat * agent_outcome)
        (st : state) (sid : string) (body : option string) :
  exists added,
    chat_messages (snd (send_message agent_turn st sid body))
    = chat_messages st ++ added /\
    length added <= 2 /\
    Forall (fun m => m_session_id m = sid /\ sqlite_sequence st < m_id m)
           added.
Proof.
  unfold send_message.
  destruct (Py.is_empty (message_field body)).
  { exists []. rewrite app_nil_r. repeat split; [simpl; lia | constructor]. }
  set (st1 := if length (get_chat_history st sid) =? 0
              then update_session_title st sid (message_field body)
              else st).
  assert (H1 : chat_messages st1 = chat_messages st
               /\ sqlite_sequence st1 = sqlite_sequence st).
  { subst st1. destruct (length (get_chat_history st sid) =? 0);
      split; reflexivity. }
  destruct H1 as [Hm1 Hq1].
  destruct (agent_turn _ _) as [d [r|e]]; cbn [snd]; simpl;
    rewrite Hm1, Hq1.
  - eexists. rewrite <- app_assoc. split; [reflexivity|].
    split; [simpl; lia|]. repeat constructor; simpl; lia.
  - eexists. split; [reflexivity|].
    split; [simpl; lia|]. repeat constructor; simpl; lia.
Qed.

Lemma find_touch_other (sid sid' : string) (t : nat) (l : list session_row) :
  sid' <> sid ->
  find (is_session sid') (map (touch_session sid t) l)
  = find (is_session sid') l.
Proof.
  intros Hne. rewrite find_session_touch.
  destruct (find (is_session sid') l) as [s|] eqn:Hf; [|reflexivity].
  simpl. unfold touch_session.
  rewrite (is_session_other sid sid' s Hne (find_is_session _ _ _ Hf)).
  reflexivity.
Qed.

Lemma find_retitle_other (sid sid' title : string) (t : nat)
      (l : list session_row) :
  sid' <> sid ->
  find (is_session sid') (map (retitle_session sid title t) l)
  = find (is_session sid') l.
Proof.
  intros Hne. rewrite find_session_retitle.
  destruct (find (is_session sid') l) as [s|] eqn:Hf; [|reflexivity].
  simpl. unfold retitle_session.
  rewrite (is_session_other sid sid' s Hne (find_is_session _ _ _ Hf)).
  reflexivity.
Qed.

Lemma find_session_save_other (st : state) (sid sid' role c : string) :
  sid' <> sid ->
  find_session (save_message st sid role c) sid' = find_session st sid'.
Proof. intros H. unfold find_session. simpl. apply find_touch_other, H. Qed.

Lemma find_session_update_other (st : state) (sid sid' t : string) :
  sid' <> sid ->
  find_session (update_session_title st sid t) sid' = find_session st sid'.
Proof. intros H. unfold find_session. simpl. apply find_retitle_other, H. Qed.

Lemma session_messages_save_other (st : state) (sid sid' role c : string) :
  sid' <> sid ->
  session_messages (save_message st sid role c) sid'
  = session_messages st sid'.
Proof.
  intros H. rewrite session_messages_save_message.
  replace (String.eqb sid sid') with false
    by (symmetry; apply String.eqb_neq; congruence).
  apply app_nil_r.
Qed.

(** X12. [send_message] rewrites a title only for the addressed session
    and only when that session has no history: the title of any other
    session, and of the addressed one once it has messages, is as before,
    whatever the text and whatever the agent does. *)
Theorem send_message_keeps_titles
        (agent_turn : list history_row -> string -> nat * agent_outcome)
        (st : state) (sid sid' : string) (body : option string) :
  sid' <> sid \/ get_chat_history st sid <> [] ->
  session_title (snd (send_message agent_turn st sid body)) sid'
  = session_title st sid'.
Proof.
  intros H. unfold send_message.
  destruct (Py.is_empty (message_field body)); [reflexivity|].
  set (st1 := if length (get_chat_history st sid) =? 0
              then update_session_title st sid (message_field body)
              else st).
  assert (H1 : session_title st1 sid' = session_title st sid').
  { subst st1. destruct (get_chat_history st sid) as [|h t] eqn:Hh;
      [|reflexivity].
    destruct H as [Hne|Hne]; [|congruence]. simpl.
    unfold session_title. rewrite find_session_update_other by exact Hne.
    reflexivity. }
  destruct (agent_turn _ _) as [d [r|e]]; cbn [snd];
    rewrite ?session_title_save_message, ?session_title_elapse,
            ?session_title_save_message; exact H1.
Qed.

Lemma send_message_keeps_titles_witness :
  session_title
    (snd (send_message Demo.quick_agent Demo.five_messages "a1"
                       (Some "A much later question about easements")))
    "a1"
  = Some "What is a tort?".
Proof.
  assert (H : session_title
                (snd (send_message Demo.quick_agent Demo.five_messages "a1"
                        (Some "A much later question about easements")))
                "a1"
              = session_title Demo.five_messages "a1").
  { apply send_message_keeps_titles. right. vm_compute. discriminate. }
  rewrite H. vm_compute. reflexivity.
Defined.

(** ** One session at a time *)

(** X13. An event addressed to one session leaves every other session as
    it was: its row, its message rows and its history. *)
Theorem step_leaves_other_sessions
        (agent_turn : list history_row -> string -> nat * agent_outcome)
        (st : state) (e : event) (sid' : string) :
  addresses e sid' = false ->
  let st' := step agent_turn st e in
  find_session st' sid' = find_session st sid' /\
  session_messages st' sid' = session_messages st sid' /\
  get_chat_history st' sid' = get_chat_history st sid'.
Proof.
  intros Ha st'.
  assert (H : find_session st' sid' = find_session st sid' /\
              session_messages st' sid' = session_messages st sid').
  { subst st'. destruct e; simpl in Ha; unfold step;
      try (split; reflexivity); apply String.eqb_neq in Ha;
      assert (Hne : sid' <> _) by (intros E; apply Ha; symmetry; exact E).
    - unfold new_session, create_new_session.
      destruct (existsb _ _); cbn [snd]; [split; reflexivity|].
      split; [|reflexivity].
      unfold find_session. simpl. apply find_app_other.
      unfold is_session. simpl. apply String.eqb_neq. exact Ha.
    - unfold send_message.
      destruct (Py.is_empty (message_field body)); [split; reflexivity|].
      set (st1 := if length (get_chat_history st sid) =? 0
                  then update_session_title st sid (message_field body)
                  else st).
      assert (H1 : find_session st1 sid' = find_session st sid' /\
                   session_messages st1 sid' = session_messages st sid').
      { subst st1. destruct (length (get_chat_history st sid) =? 0);
          [|split; reflexivity].
        split; [apply find_session_update_other; exact Hne | reflexivity]. }
      destruct H1 as [Hf1 Hm1].
      destruct (agent_turn _ _) as [d [r|e]]; cbn [snd].
      + rewrite find_session_save_other, session_messages_save_other
          by exact Hne.
        change (find_session (elapse d ?s) sid') with (find_session s sid').
        change (session_messages (elapse d ?s) sid')
          with (session_messages s sid').
        rewrite find_session_save_other, session_messages_save_other
          by exact Hne.
        split; assumption.
      + change (find_session (elapse d ?s) sid') with (find_session s sid').
        change (session_messages (elapse d ?s) sid')
          with (session_messages s sid').
        rewrite find_session_save_other, session_messages_save_other
          by exact Hne.
        split; assumption.
    - split.
      + unfold find_session. simpl. apply find_filter_other. exact Hne.
      + unfold session_messages. simpl. apply filter_other_session.
        exact Hne.
    - unfold edit_message.
      destruct (Py.is_empty (message_field body)); [split; reflexivity|].
      destruct (unbindable st mid); [split; reflexivity|].
      destruct (not_editable st sid mid); [split; reflexivity|].
      assert (H1 : find_session
                     (rewrite_and_truncate st sid mid (message_field body))
                     sid' = find_session st sid' /\
                   session_messages
                     (rewrite_and_truncate st sid mid (message_field body))
                     sid' = session_messages st sid').
      { split.
        - unfold find_session. simpl. apply find_touch_other. exact Hne.
        - unfold session_messages. simpl.
          apply truncation_other_session. exact Hne. }
      destruct H1 as [Hf1 Hm1].
      destruct (agent_turn _ _) as [d [r|e]]; cbn [snd].
      + rewrite find_session_save_other, session_messages_save_other
          by exact Hne.
        split; assumption.
      + split; assumption. }
  destruct H as [Hf Hm]. split; [exact Hf|]. split; [exact Hm|].
  unfold get_chat_history. unfold session_messages in Hm. rewrite Hm.
  reflexivity.
Qed.

Lemma step_leaves_other_sessions_witness :
  get_chat_history
    (step Demo.quick_agent Samples.two_sessions (DeleteSession "s1")) "s2"
  = get_chat_history Samples.two_sessions "s2".
Proof.
  apply (step_leaves_other_sessions Demo.quick_agent Samples.two_sessions
           (DeleteSession "s1") "s2").
  vm_compute. reflexivity.
Defined.

(** ** Editing: the other outcomes *)

(** X14. When the agent raises during an edit, the answer is 500 and the
    rewrite and the truncation stay: in a reachable store the session then
    ends at the edited message, the later rows are gone and no reply was
    written. *)
Theorem edit_message_agent_failure
        (agent_turn : list history_row -> string -> nat * agent_outcome)
        (st : state) (sid : string) (mid : nat) (body : option string)
        (M : message_row) (d : nat) (e : string) :
  let new_message := message_field body in
  let st1 := rewrite_and_truncate st sid mid new_message in
  let st' := snd (edit_message agent_turn st sid mid body) in
  let kept := filter (fun m => m_id m <? mid) (session_messages st sid) in
  let edited := mk_message mid sid "user" new_message (clock st) in
  reachable agent_turn st ->
  new_message <> EmptyString ->
  fetch_message st sid mid = Some M ->
  m_role M = "user" ->
  agent_turn (get_chat_history st1 sid) new_message = (d, AgentRaises e) ->
  fst (edit_message agent_turn st sid mid body)
  = JsonError 500 "Internal server error" (Some e) /\
  session_messages st' sid = kept ++ [edited] /\
  get_chat_history st' sid = map history_of (kept ++ [edited]) /\
  sqlite_sequence st' = sqlite_sequence st.
Proof.
  intros new_message st1 st' kept edited Hr Hnew HM Hrole Hagent.
  pose proof (reachable_well_formed agent_turn st Hr) as Hwf.
  assert (Hwf' : well_formed st') by (apply well_formed_edit_message, Hwf).
  assert (Hne : not_editable st sid mid = false).
  { unfold not_editable. rewrite HM, Hrole. reflexivity. }
  assert (Hedit : edit_message agent_turn st sid mid body
                  = (JsonError 500 "Internal server error" (Some e),
                     elapse d st1)).
  { rewrite edit_message_accepted
      by (try assumption; exact (fetched_id_bindable st sid mid M Hwf HM)).
    cbv zeta.
    fold new_message. fold st1. rewrite Hagent. reflexivity. }
  assert (Hids : StronglySorted (fun a b => m_id a < m_id b)
                                (chat_messages st)).
  { destruct Hwf as [Hs _]. eapply StronglySorted_weaken; [|exact Hs].
    intros x y _ _ [H _]. exact H. }
  assert (Hown : session_messages st' sid = kept ++ [edited]).
  { subst st'. rewrite Hedit. cbn [snd].
    change (session_messages (elapse d st1) sid)
      with (session_messages st1 sid).
    unfold session_messages, st1, rewrite_and_truncate. simpl.
    rewrite (truncation_own_session sid mid new_message (clock st)
               (chat_messages st) M Hids HM).
    rewrite Hrole. reflexivity. }
  split; [rewrite Hedit; reflexivity|].
  split; [exact Hown|].
  split; [rewrite (well_formed_history st' sid Hwf'), Hown; reflexivity|].
  subst st'. rewrite Hedit. reflexivity.
Qed.

Lemma edit_message_agent_failure_witness :
  get_chat_history
    (snd (edit_message Samples.tired_agent Demo.five_messages "a1" 2
                       (Some "Define nuisance"))) "a1"
  = [ mk_history 1 "user" "What is a tort?" 1;
      mk_history 2 "user" "Define nuisance" 13 ].
Proof.
  assert (Hr : reachable Samples.tired_agent Demo.five_messages)
    by (exists Samples.five_events; vm_compute; reflexivity).
  assert (Hb : message_field (Some "Define nuisance") <> EmptyString)
    by (vm_compute; discriminate).
  assert (HM : fetch_message Demo.five_messages "a1" 2
               = Some (mk_message 2 "a1" "user" "Define negligence" 4))
    by (vm_compute; reflexivity).
  assert (Ha : Samples.tired_agent
                 (get_chat_history
                    (rewrite_and_truncate Demo.five_messages "a1" 2
                       (message_field (Some "Define nuisance"))) "a1")
                 (message_field (Some "Define nuisance"))
               = (4, AgentRaises "rate limit"))
    by (vm_compute; reflexivity).
  pose proof (edit_message_agent_failure Samples.tired_agent
                Demo.five_messages "a1" 2 (Some "Define nuisance")
                _ 4 "rate limit" Hr Hb HM eq_refl Ha) as H.
  destruct H as (_ & _ & H & _). rewrite H. vm_compute. reflexivity.
Defined.

(** X15. An edit whose new text is empty, missing or whitespace only is
    answered 400 before any look-up, and the store is unchanged. *)
Theorem edit_message_blank_rejected
        (agent_turn : list history_row -> string -> nat * agent_outcome)
        (st : state) (sid : string) (mid : nat) (body : option string) :
  Py.all_space (raw_message body) = true ->
  edit_message agent_turn st sid mid body
  = (JsonError 400 "Message cannot be empty" None, st).
Proof.
  intros H. unfold edit_message, message_field.
  apply strip_empty_iff in H. rewrite H. reflexivity.
Qed.

Lemma edit_message_blank_rejected_witness :
  edit_message Demo.quick_agent Demo.five_messages "a1" 2 None
  = (JsonError 400 "Message cannot be empty" None, Demo.five_messages).
Proof.
  apply edit_message_blank_rejected. reflexivity.
Defined.

Lemma unique_row_by_id (l : list message_row) (a b : message_row) :
  StronglySorted (fun x y => m_id x < m_id y) l ->
  In a l -> In b l -> m_id a = m_id b -> a = b.
Proof.
  induction 1 as [|x r Hr IH Hx]; simpl; [contradiction|].
  rewrite Forall_forall in Hx.
  intros [<-|Ha] [<-|Hb] Hid; auto.
  - specialize (Hx b Hb). lia.
  - specialize (Hx a Ha). lia.
Qed.

(** X16. A message can only be edited through its own session: in a
    reachable store, an edit with text that names the id of a message
    of another session is answered 404 and changes nothing. *)
Theorem edit_message_wrong_session
        (agent_turn : list history_row -> string -> nat * agent_outcome)
        (st : state) (sid : string) (mid : nat) (body : option string)
        (m : message_row) :
  reachable agent_turn st ->
  In m (chat_messages st) -> m_id m = mid -> m_session_id m <> sid ->
  message_field body <> EmptyString ->
  edit_message agent_turn st sid mid body
  = (JsonError 404 "Message not found or cannot edit assistant messages"
               None, st).
Proof.
  intros Hr Hin Hid Hs Hb.
  apply reachable_well_formed in Hr as Hwf.
  assert (Hu : unbindable st mid = false)
    by (rewrite <- Hid; apply stored_id_bindable; assumption).
  destruct Hwf as [Hsorted _].
  assert (Hids : StronglySorted (fun a b => m_id a < m_id b)
                                (chat_messages st)).
  { eapply StronglySorted_weaken; [|exact Hsorted].
    intros x y _ _ [H _]. exact H. }
  assert (Hnone : fetch_message st sid mid = None).
  { apply fetch_message_none. intros m' Hin' [Hid' Hs'].
    assert (m' = m)
      by (apply (unique_row_by_id _ _ _ Hids Hin' Hin); congruence).
    subst m'. contradiction. }
  unfold edit_message.
  destruct (Py.is_empty (message_field body)) eqn:He.
  { apply is_empty_iff in He. contradiction. }
  rewrite Hu. unfold not_editable. rewrite Hnone. reflexivity.
Qed.

Lemma edit_message_wrong_session_witness :
  edit_message Demo.quick_agent Samples.two_sessions "s2" 3
               (Some "Rewritten from the other session")
  = (JsonError 404 "Message not found or cannot edit assistant messages"
               None, Samples.two_sessions).
Proof.
  assert (Hin : In (mk_message 3 "s1" "user" "What is adverse possession?" 9)
                   (chat_messages Samples.two_sessions))
    by (vm_compute; do 2 right; left; reflexivity).
  apply (edit_message_wrong_session Demo.quick_agent Samples.two_sessions
           "s2" 3 _ _ (ex_intro _ _ eq_refl) Hin);
    [reflexivity | discriminate | discriminate].
Defined.

(** ** Deleting twice, deleting nothing *)

Lemma filter_idem {A : Type} (f : A -> bool) (l : list A) :
  filter f (filter f l) = filter f l.
Proof.
  induction l as [|a l IH]; simpl; [reflexivity|].
  destruct (f a) eqn:Hf; simpl; [rewrite Hf, IH|]; auto.
Qed.

Lemma filter_all {A : Type} (f : A -> bool) (l : list A) :
  filter (fun x => negb (f x)) l = l <-> filter f l = [].
Proof.
  induction l as [|a l IH]; simpl; [tauto|].
  destruct (f a); simpl.
  - split; [|discriminate]. intros H.
    assert (Hlen : length (filter (fun x => negb (f x)) l) <= length l)
      by apply filter_length_le.
    rewrite H in Hlen. simpl in Hlen. lia.
  - rewrite <- IH. split; [intros [= H]; exact H | intros ->; reflexivity].
Qed.

(** X17. [delete_session] always answers success; deleting again changes
    nothing more, and deleting an id that has neither a session row nor
    message rows leaves the store as it is. *)
Theorem delete_session_idempotent (st : state) (sid : string) :
  fst (delete_session st sid) = Json200 StatusSuccess /\
  snd (delete_session (snd (delete_session st sid)) sid)
  = snd (delete_session st sid) /\
  (session_exists st sid = false -> session_messages st sid = [] ->
   snd (delete_session st sid) = st).
Proof.
  split; [reflexivity|]. split.
  - simpl. rewrite !filter_idem. reflexivity.
  - intros Hex Hm. simpl.
    assert (Hs : filter (fun s => negb (is_session sid s)) (chat_sessions st)
                 = chat_sessions st).
    { apply filter_all. unfold session_exists in Hex.
      induction (chat_sessions st) as [|s l IH]; simpl; [reflexivity|].
      simpl in Hex. apply orb_false_iff in Hex as [H1 H2].
      rewrite H1. auto. }
    assert (Hr : filter (fun m => negb (of_session sid m)) (chat_messages st)
                 = chat_messages st)
      by (apply filter_all; exact Hm).
    rewrite Hs, Hr. destruct st; reflexivity.
Qed.

Lemma delete_session_idempotent_witness :
  snd (delete_session Demo.five_messages "zz") = Demo.five_messages.
Proof.
  apply (delete_session_idempotent Demo.five_messages "zz");
    vm_compute; reflexivity.
Defined.

(** ** The context of the agent *)

Lemma slice_to_all (n : nat) (s : string) :
  String.length s <= n -> Py.slice_to n s = s.
Proof.
  revert s. induction n as [|n IH]; intros [|c r]; simpl; intros H;
    try reflexivity; [lia|].
  rewrite IH by lia. reflexivity.
Qed.

Lemma last_five_app (older recent : list history_row) :
  5 <= length recent -> last_five (older ++ recent) = last_five recent.
Proof.
  intros H. unfold last_five. rewrite length_app, skipn_app.
  rewrite skipn_all2 by lia. simpl. f_equal. lia.
Qed.

Lemma Forall2_skipn {A B : Type} (R : A -> B -> Prop) (n : nat)
      (l1 : list A) (l2 : list B) :
  Forall2 R l1 l2 -> Forall2 R (skipn n l1) (skipn n l2).
Proof.
  intros H. revert n. induction H as [|a b l1 l2 Hab Hl IH]; intros [|n];
    simpl; auto.
Qed.

Section ContextFacts.

Variable title : string -> string.

Lemma context_line_alike (a b : history_row) :
  h_role a = h_role b ->
  Py.slice_to 200 (h_content a) = Py.slice_to 200 (h_content b) ->
  context_line title a = context_line title b.
Proof. intros Hr Hc. unfold context_line. rewrite Hr, Hc. reflexivity. Qed.

Lemma context_lines_alike (l1 l2 : list history_row) (acc : string) :
  Forall2 (fun a b => h_role a = h_role b /\
                      Py.slice_to 200 (h_content a)
                      = Py.slice_to 200 (h_content b)) l1 l2 ->
  fold_left (fun acc msg => (acc ++ context_line title msg)%string) l1 acc
  = fold_left (fun acc msg => (acc ++ context_line title msg)%string) l2 acc.
Proof.
  intros H. revert acc. induction H as [|a b l1 l2 [Hr Hc] Hl IH];
    intros acc; simpl; [reflexivity|].
  rewrite (context_line_alike a b Hr Hc). apply IH.
Qed.

Lemma context_lines_nonempty (l : list history_row) (acc : string) :
  Py.is_empty acc = false ->
  Py.is_empty
    (fold_left (fun acc msg => (acc ++ context_line title msg)%string) l acc)
  = false.
Proof.
  revert acc. induction l as [|a l IH]; intros acc H; simpl; [exact H|].
  apply IH. destruct acc; [discriminate | reflexivity].
Qed.

Lemma context_prompt_alike (h1 h2 : list history_row) :
  Forall2 (fun a b => h_role a = h_role b /\
                      Py.slice_to 200 (h_content a)
                      = Py.slice_to 200 (h_content b)) h1 h2 ->
  context_prompt title h1 = context_prompt title h2.
Proof.
  intros H. unfold context_prompt.
  pose proof (Forall2_length H) as Hlen.
  destruct H as [|a b l1 l2 Hab Hl]; [reflexivity|].
  apply context_lines_alike. unfold last_five. rewrite Hlen.
  apply Forall2_skipn. constructor; assumption.
Qed.

Lemma context_prompt_recent (older recent : list history_row) :
  5 <= length recent ->
  context_prompt title (older ++ recent) = context_prompt title recent.
Proof.
  intros H. unfold context_prompt. rewrite (last_five_app older recent H).
  destruct recent as [|r rs]; [simpl in H; lia|].
  destruct older; reflexivity.
Qed.

Lemma context_instruction_empty (h : list history_row) :
  context_instruction title h = EmptyString <-> h = [].
Proof.
  unfold context_instruction, context_prompt. split.
  - destruct h as [|a l]; [reflexivity|]. intros H.
    rewrite context_lines_nonempty in H by reflexivity. discriminate.
  - intros ->. reflexivity.
Qed.

End ContextFacts.

(** X18. The context built for the agent depends only on the last five
    messages of the history, and of each only on its role and the first 200
    characters of its text; the context entry of the instructions is empty
    exactly when there is no history. *)
Theorem agent_context_window (title : string -> string) :
  (forall older recent : list history_row,
      5 <= length recent ->
      context_prompt title (older ++ recent) = context_prompt title recent) /\
  (forall h1 h2 : list history_row,
      Forall2 (fun a b => h_role a = h_role b /\
                          Py.slice_to 200 (h_content a)
                          = Py.slice_to 200 (h_content b)) h1 h2 ->
      context_prompt title h1 = context_prompt title h2) /\
  (forall h, context_instruction title h = EmptyString <-> h = []).
Proof.
  split; [apply context_prompt_recent|].
  split; [apply context_prompt_alike | apply context_instruction_empty].
Qed.

Lemma agent_context_window_witness :
  context_prompt Samples.role_title
    (mk_history 90 "user" "An older question" 0
     :: get_chat_history Demo.five_messages "a1")
  = context_prompt Samples.role_title
      (get_chat_history Demo.five_messages "a1").
Proof.
  apply (proj1 (agent_context_window Samples.role_title)
               [mk_history 90 "user" "An older question" 0]
               (get_chat_history Demo.five_messages "a1")).
  vm_compute. lia.
Defined.

(** ** The scraper: telling failure from content *)

Section ScraperMore.

Import Scraper.

Lemma attempt_returns_no_error
      (requests_get : string -> result http_response) (s : string) :
  attempt requests_get = Returned s -> Py.startswith "Error:" s = false.
Proof.
  unfold attempt, bind.
  destruct (requests_get fixed_url) as [r|e]; [|discriminate].
  destruct (raise_for_status fixed_url r) as [u|e]; [|discriminate].
  destruct (parsed r) as [p|e]; [|discriminate].
  destruct (text_content p) as [t|e]; [|discriminate].
  destruct (String.length (Py.join " " (Py.split t)) <? 50);
    intros [= <-]; reflexivity.
Qed.

End ScraperMore.

(** X19. The answer of [run] begins with "Error:" exactly when something
    was raised inside the [try]: an "Error:" text is never page content and
    page content never begins with "Error:". *)
Theorem scraper_error_iff_raised
        (requests_get : string -> Scraper.result Scraper.http_response)
        (s : string) :
  Scraper.run requests_get = Scraper.Returned s ->
  (Py.startswith "Error:" s = true <->
   exists e, Scraper.attempt requests_get = Scraper.Raised e).
Proof.
  unfold Scraper.run.
  destruct (Scraper.attempt requests_get) as [s0|e] eqn:Ha.
  - intros [= <-]. rewrite (attempt_returns_no_error requests_get s0 Ha).
    split; [discriminate | intros [e He]; discriminate].
  - destruct e as [msg|msg]; intros [= <-];
      (split; [intros _; eexists; reflexivity | reflexivity]).
Qed.

Lemma scraper_error_iff_raised_witness :
  Py.startswith "Error:"
    "Error: Could not access LawBhoomi URL https://lawbhoomi.com/law-notes/. Details: Max retries exceeded"
  = true <->
  exists e, Scraper.attempt Demo.unreachable_host = Scraper.Raised e.
Proof.
  apply (scraper_error_iff_raised Demo.unreachable_host). reflexivity.
Defined.

(** ** The scraper: whitespace *)

Section SplitJoin.

Import Py.

Lemma append_empty_r (s : string) : (s ++ "")%string = s.
Proof. induction s as [|c r IH]; simpl; [|rewrite IH]; reflexivity. Qed.

Lemma append_assoc (a b c : string) :
  ((a ++ b) ++ c)%string = (a ++ (b ++ c))%string.
Proof. induction a as [|x a IH]; simpl; [|rewrite IH]; reflexivity. Qed.

Lemma no_space_app (a b : string) :
  no_space (a ++ b) = no_space a && no_space b.
Proof.
  induction a as [|c a IH]; simpl; [reflexivity|].
  rewrite IH, andb_assoc. reflexivity.
Qed.

(** Reading a run of visible characters only lengthens the word. *)
Lemma split_from_word (w acc rest : string) :
  no_space w = true ->
  split_from acc (w ++ rest) = split_from (acc ++ w) rest.
Proof.
  revert acc. induction w as [|c w IH]; intros acc H; simpl.
  - rewrite append_empty_r. reflexivity.
  - simpl in H. apply andb_true_iff in H as [Hc Hw].
    apply negb_true_iff in Hc. rewrite Hc, (IH _ Hw), append_assoc.
    reflexivity.
Qed.

Lemma split_one_word (w : string) :
  is_word w = true -> split w = [w].
Proof.
  unfold is_word, split. intros H. apply andb_true_iff in H as [Hne Hw].
  rewrite <- (append_empty_r w) at 1.
  rewrite (split_from_word w EmptyString EmptyString Hw). simpl.
  apply negb_true_iff in Hne. rewrite Hne. reflexivity.
Qed.

(** Joining words with single spaces and splitting again gives the words
    back. *)
Lemma split_join (ws : list string) :
  forallb is_word ws = true -> split (join " " ws) = ws.
Proof.
  induction ws as [|w ws IH]; [reflexivity|].
  intros H. cbn [forallb] in H. apply andb_true_iff in H as [Hw Hws].
  destruct ws as [|w2 r].
  - simpl. apply split_one_word. exact Hw.
  - change (join " " (w :: w2 :: r))
      with (w ++ String " " (join " " (w2 :: r)))%string.
    unfold split.
    pose proof Hw as Hw'. unfold is_word in Hw'.
    apply andb_true_iff in Hw' as [Hne Hns].
    rewrite (split_from_word w EmptyString _ Hns). simpl.
    apply negb_true_iff in Hne. rewrite Hne. f_equal.
    apply IH. exact Hws.
Qed.

(** [split] returns words. *)
Lemma split_from_words (t acc : string) :
  no_space acc = true -> forallb is_word (split_from acc t) = true.
Proof.
  revert acc. induction t as [|c r IH]; intros acc H; simpl.
  - destruct (is_empty acc) eqn:He; [reflexivity|].
    simpl. unfold is_word. rewrite He, H. reflexivity.
  - destruct (isspace c) eqn:Hc.
    + destruct (is_empty acc) eqn:He; [apply IH; reflexivity|].
      simpl. unfold is_word at 1. rewrite He, H. simpl.
      apply IH. reflexivity.
    + apply IH. rewrite no_space_app, H. simpl. rewrite Hc. reflexivity.
Qed.

End SplitJoin.

(** X20. The clean-up of the page text, [' '.join(text.split())]: the
    pieces of the split are non-empty and free of whitespace, joining such
    pieces with single spaces and splitting again returns them, and so the
    clean text has the same words as the page and cleaning it again changes
    nothing. *)
Theorem whitespace_cleanup_round_trip :
  (forall ws : list string,
      forallb is_word ws = true -> Py.split (Py.join " " ws) = ws) /\
  (forall text : string,
      let clean := Py.join " " (Py.split text) in
      forallb is_word (Py.split text) = true /\
      Py.split clean = Py.split text /\
      Py.join " " (Py.split clean) = clean).
Proof.
  split; [exact split_join|].
  intros text clean.
  assert (Hw : forallb is_word (Py.split text) = true)
    by (apply split_from_words; reflexivity).
  assert (Hs : Py.split clean = Py.split text)
    by (apply split_join; exact Hw).
  split; [exact Hw|]. split; [exact Hs|].
  rewrite Hs. reflexivity.
Qed.

Lemma whitespace_cleanup_round_trip_witness :
  Py.split (Py.join " " ["Law"; "Notes"; "on"; "Torts"])
  = ["Law"; "Notes"; "on"; "Torts"].
Proof.
  apply (proj1 whitespace_cleanup_round_trip). reflexivity.
Defined.

(** X21. When the fetch succeeds with a status outside 4xx and 5xx and
    the page parses, [run] returns page text, taken from the content
    container if there is one and from the body otherwise: cleaned text of
    50 characters or more between the START and END markers, shorter text
    whole (the slice to 50 characters cuts nothing) in the short-content
    notice. *)
Theorem scraper_run_content
        (requests_get : string -> Scraper.result Scraper.http_response)
        (r : Scraper.http_response) (page : Scraper.soup) (text : string) :
  requests_get Scraper.fixed_url = Scraper.Returned r ->
  ~ (400 <= Scraper.status_code r < 600) ->
  Scraper.parsed r = Scraper.Returned page ->
  Scraper.text_content page = Scraper.Returned text ->
  let clean := Py.join " " (Py.split text) in
  (text = match Scraper.content_area page with
          | Some t => t
          | None => match Scraper.body page with
                    | Some t => t
                    | None => text
                    end
          end) /\
  (String.length clean < 50 ->
   Scraper.run requests_get
   = Scraper.Returned
       ("Successfully accessed URL https://lawbhoomi.com/law-notes/, but extracted very little content. Extracted snippet: "
        ++ clean ++ "...")%string) /\
  (50 <= String.length clean ->
   Scraper.run requests_get
   = Scraper.Returned
       ("--- START OF LAW BHOOMI NOTES CONTENT ---" ++ Scraper.nl
        ++ Scraper.nl ++ clean ++ Scraper.nl ++ Scraper.nl
        ++ "--- END OF LAW BHOOMI NOTES CONTENT ---")%string).
Proof.
  intros Hget Hstatus Hparsed Htext clean.
  assert (Hok : Scraper.raise_for_status Scraper.fixed_url r
                = Scraper.Returned tt).
  { destruct (Scraper.raise_for_status Scraper.fixed_url r) as [[]|e] eqn:E;
      [reflexivity|].
    exfalso. apply Hstatus.
    apply (raise_for_status_iff Scraper.fixed_url). exists e. exact E. }
  split.
  { unfold Scraper.text_content in Htext.
    destruct (Scraper.content_area page); [congruence|].
    destruct (Scraper.body page); [congruence | reflexivity]. }
  unfold Scraper.run, Scraper.attempt, Scraper.bind.
  rewrite Hget, Hok, Hparsed, Htext. fold clean.
  split; intros Hlen.
  - apply Nat.ltb_lt in Hlen as Hb. rewrite Hb.
    rewrite slice_to_all by lia. reflexivity.
  - apply Nat.ltb_ge in Hlen. rewrite Hlen. reflexivity.
Qed.

Lemma scraper_run_content_witness :
  Scraper.run (fun _ => Scraper.Returned Samples.ragged_page)
  = Scraper.Returned
      "Successfully accessed URL https://lawbhoomi.com/law-notes/, but extracted very little content. Extracted snippet: Law Notes on Torts...".
Proof.
  assert (Hs : ~ (400 <= Scraper.status_code Samples.ragged_page < 600))
    by (simpl; lia).
  destruct (scraper_run_content
              (fun _ => Scraper.Returned Samples.ragged_page)
              Samples.ragged_page
              (Scraper.mk_soup (Some "  Law   Notes  on  Torts ")
                               (Some "ignored"))
              "  Law   Notes  on  Torts "
              eq_refl Hs eq_refl eq_refl) as (_ & H & _).
  apply H. vm_compute. lia.
Defined.

(** ** Reading a history from any store *)

Lemma insert_by_timestamp_ascending (m : message_row) (l : list message_row) :
  StronglySorted (fun a b => m_timestamp a <= m_timestamp b) l ->
  StronglySorted (fun a b => m_timestamp a <= m_timestamp b)
                 (insert_by_timestamp m l).
Proof.
  induction 1 as [|x r Hr IH Hx]; simpl; [repeat constructor|].
  destruct (Nat.leb_spec (m_timestamp m) (m_timestamp x)) as [Hle|Hgt].
  - constructor; [constructor; assumption|].
    constructor; [exact Hle|].
    eapply Forall_impl; [|exact Hx]. intros y Hy. simpl in Hy. lia.
  - constructor; [exact IH|].
    eapply Permutation_Forall; [apply insert_by_timestamp_perm|].
    constructor; [lia | exact Hx].
Qed.

Lemma order_by_timestamp_ascending (l : list message_row) :
  StronglySorted (fun a b => m_timestamp a <= m_timestamp b)
                 (order_by_timestamp l).
Proof.
  induction l as [|m r IH]; simpl; [constructor|].
  apply insert_by_timestamp_ascending, IH.
Qed.

(** X22. In any store, reachable or not, [get_chat_history] returns the
    rows of the asked session and no others, each once, in non-decreasing
    timestamp order. *)
Theorem get_chat_history_any_store (st : state) (sid : string) :
  Permutation (map history_of (session_messages st sid))
              (get_chat_history st sid) /\
  StronglySorted (fun a b => h_timestamp a <= h_timestamp b)
                 (get_chat_history st sid) /\
  (forall h, In h (get_chat_history st sid) <->
             exists m, In m (chat_messages st) /\ m_session_id m = sid
                       /\ history_of m = h).
Proof.
  assert (Hp : Permutation (map history_of (session_messages st sid))
                           (get_chat_history st sid))
    by (apply Permutation_map, order_by_timestamp_perm).
  split; [exact Hp|]. split.
  - unfold get_chat_history. apply StronglySorted_map.
    apply (order_by_timestamp_ascending
             (filter (of_session sid) (chat_messages st))).
  - intros h. split.
    + intros Hin. apply (Permutation_in _ (Permutation_sym Hp)) in Hin.
      apply in_map_iff in Hin as (m & Hm & Hin).
      apply filter_In in Hin as [Hin Hs]. apply of_session_eq in Hs.
      exists m. repeat split; assumption.
    + intros (m & Hin & Hs & Hm). apply (Permutation_in _ Hp).
      apply in_map_iff. exists m. split; [exact Hm|].
      apply filter_In. split; [exact Hin | apply of_session_eq; exact Hs].
Qed.

(** ** Stores built by sending to existing sessions only *)

Lemma no_rows_without_session (st : state) (sid : string) :
  referential_integrity st = true -> session_exists st sid = false ->
  session_messages st sid = [].
Proof.
  intros Hri Hno. rewrite referential_integrity_spec in Hri.
  unfold session_messages.
  destruct (filter (of_session sid) (chat_messages st)) as [|m l] eqn:Hf;
    [reflexivity|].
  assert (Hin : In m (filter (of_session sid) (chat_messages st)))
    by (rewrite Hf; left; reflexivity).
  apply filter_In in Hin as [Hin Hs]. apply of_session_eq in Hs.
  specialize (Hri m Hin). congruence.
Qed.

(** X23. Starting from the empty database, as long as every send-message
    request names a session that exists when it arrives, every message row
    has a session row; creating, editing and deleting never break this.
    In such a store an id without session row has an empty history. *)
Theorem sends_to_sessions_keep_integrity
        (agent_turn : list history_row -> string -> nat * agent_outcome)
        (es : list event) :
  sends_to_sessions agent_turn init_db es ->
  let st := run agent_turn init_db es in
  referential_integrity st = true /\
  (forall m, In m (chat_messages st) ->
             session_exists st (m_session_id m) = true) /\
  (forall sid, session_exists st sid = false -> get_chat_history st sid = []).
Proof.
  intros Hs st.
  assert (Hri : referential_integrity st = true)
    by (apply integrity_run; [reflexivity | exact Hs]).
  split; [exact Hri|]. split.
  - apply referential_integrity_spec. exact Hri.
  - intros sid Hno. unfold get_chat_history.
    pose proof (no_rows_without_session st sid Hri Hno) as Hnil.
    unfold session_messages in Hnil. rewrite Hnil. reflexivity.
Qed.

Lemma sends_to_sessions_keep_integrity_witness :
  referential_integrity (run Demo.moody_agent init_db Samples.five_events)
  = true.
Proof.
  assert (Hs : sends_to_sessions Demo.moody_agent init_db Samples.five_events)
    by (vm_compute; repeat split).
  pose proof (sends_to_sessions_keep_integrity Demo.moody_agent
                Samples.five_events Hs) as H.
  cbv zeta in H. exact (proj1 H).
Defined.
